(** * WWTPSim: the simulation core of [wwtpsim.cpp]

    A shallow embedding of the water-quality data model ([Water]), of the
    per-unit transfer functions (the [simulate] overrides of the
    [Component] subclasses), of the two-pass tick of the main loop and of
    the bounded parameter history ([ParameterHistory], [updateHistories]).

    Numbers.  The program computes with C++ [float].  The embedding reads
    every [float] as a real number of the Standard Library: [std::exp] is
    [exp], [std::pow] is [Rpower], a literal such as [0.70f] is the
    decimal [0.70], and a comparison [x < 0] is [Rlt_dec x 0].  Rounding
    is therefore outside the model.  So are overflow and NaN in these
    real-number definitions; a second set of definitions ([float32], the
    [_binary32] bodies of the six kinetic units, [particle_color])
    follows the program to the infinities and NaN of binary32.  A
    statement on the range or the order of outlet values is made there,
    or carries the conditions under which no NaN arises.

    Rendering (shapes, particles, ImGui widgets) carries no simulation
    state and is left out. *)

From Stdlib Require Import Reals Lra.
From stdpp Require Import base option list gmap strings.

(** ** Water parameters *)

(** [enum WaterParameter], in declaration order. *)
Inductive WaterParameter : Set :=
  | BOD | COD | TSS | NH4 | NO3 | PH | P | OIL | DO | TEMP
  | PATHOGENS | SALINITY | TURBIDITY | EC | ALKALINITY
  | RESIDUAL_CHLORINE | HARDNESS | SULFATES | CHLORIDES | METALS.

(** The integer value of each enumerator; [std::map] orders its keys by it. *)
Definition param_index (p : WaterParameter) : nat :=
  match p with
  | BOD => 0 | COD => 1 | TSS => 2 | NH4 => 3 | NO3 => 4
  | PH => 5 | P => 6 | OIL => 7 | DO => 8 | TEMP => 9
  | PATHOGENS => 10 | SALINITY => 11 | TURBIDITY => 12 | EC => 13
  | ALKALINITY => 14 | RESIDUAL_CHLORINE => 15 | HARDNESS => 16
  | SULFATES => 17 | CHLORIDES => 18 | METALS => 19
  end.

Definition all_parameters : list WaterParameter :=
  [BOD; COD; TSS; NH4; NO3; PH; P; OIL; DO; TEMP;
   PATHOGENS; SALINITY; TURBIDITY; EC; ALKALINITY;
   RESIDUAL_CHLORINE; HARDNESS; SULFATES; CHLORIDES; METALS].

Definition param_of_index (n : nat) : WaterParameter :=
  nth n all_parameters BOD.

#[global] Instance WaterParameter_eq_dec : EqDecision WaterParameter.
Proof. solve_decision. Defined.

Lemma param_of_index_index p : param_of_index (param_index p) = p.
Proof. by destruct p. Qed.

#[global] Instance WaterParameter_countable : Countable WaterParameter :=
  inj_countable' param_index param_of_index param_of_index_index.

Lemma all_parameters_complete p : p ∈ all_parameters.
Proof. destruct p; apply list_elem_of_In; simpl; tauto. Qed.

Lemma all_parameters_NoDup : NoDup all_parameters.
Proof. compute_done. Qed.

(** ** class Water *)

Section WaterModel.
Local Open Scope R_scope.

(** [std::map<WaterParameter, float> parameters].  The constructor writes
    all twenty keys and nothing ever erases one, so the map is total: a
    function from the enumeration. *)
Definition Water : Type := WaterParameter -> R.

(** [Water::Water()]: the default raw-influent profile. *)
Definition Water_new : Water := fun p =>
  match p with
  | BOD => 300.0 | COD => 600.0 | TSS => 200.0 | NH4 => 50.0 | NO3 => 5.0
  | PH => 6.5 | P => 10.0 | OIL => 30.0 | DO => 2.0 | TEMP => 20.0
  | PATHOGENS => 1e6 | SALINITY => 0.5 | TURBIDITY => 50.0 | EC => 1500.0
  | ALKALINITY => 200.0 | RESIDUAL_CHLORINE => 0.0 | HARDNESS => 250.0
  | SULFATES => 80.0 | CHLORIDES => 100.0 | METALS => 5.0
  end.

Definition updateParameter (w : Water) (param : WaterParameter) (value : R) : Water :=
  fun q => if decide (q = param) then value else w q.

Definition getParameter (w : Water) (param : WaterParameter) : R := w param.

End WaterModel.

(** ** class Component and its subclasses *)

(** The dynamic type of a component: one constructor per subclass. *)
Inductive UnitKind : Set :=
  | Inlet | Outlet
  | PrimaryClarifier | ElectrocoagulationUnit | Filtration
  | AnaerobicAerobicFilter | OzoneDisinfection | MBR | Biofilter
  | PrimarySedimentationTank | AerationTank | SecondaryClarifier
  | ChlorineDisinfectionUnit | NitrificationTank | UVDisinfection
  | AnaerobicFilter | CoagulationFlocculation | MembraneFiltration
  | ChemicalOxidation | ActiveSludgeProcess | SludgeDigester
  | OilSeparator | PhosphorusRemovalUnit | DryingBed | Pump | FlowMeter
  | WaterSoftener | ActivatedCarbonFilter | HeatExchanger
  | MetalsRemovalUnit | MembraneFiltrationUnit | ReverseOsmosisUnit.

#[global] Instance UnitKind_eq_dec : EqDecision UnitKind.
Proof. solve_decision. Defined.

(** The simulation fields of [Component]. *)
Record Component : Type := mkComponent {
  kind : UnitKind;
  volume : R;
  flowRate : R;
  HRT : R;
  SRT : R;
  temperature : R;
  inletWater : Water;
  outletWater : Water;
  removalEfficiencies : gmap WaterParameter R
}.

Definition set_inletWater (this : Component) (w : Water) : Component :=
  mkComponent (kind this) (volume this) (flowRate this) (HRT this) (SRT this)
    (temperature this) w (outletWater this) (removalEfficiencies this).

Definition set_outletWater (this : Component) (w : Water) : Component :=
  mkComponent (kind this) (volume this) (flowRate this) (HRT this) (SRT this)
    (temperature this) (inletWater this) w (removalEfficiencies this).

Definition set_temperature (this : Component) (t : R) : Component :=
  mkComponent (kind this) (volume this) (flowRate this) (HRT this) (SRT this)
    t (inletWater this) (outletWater this) (removalEfficiencies this).

Definition set_removalEfficiencies (this : Component)
    (m : gmap WaterParameter R) : Component :=
  mkComponent (kind this) (volume this) (flowRate this) (HRT this) (SRT this)
    (temperature this) (inletWater this) (outletWater this) m.

Section ComponentModel.
Local Open Scope R_scope.

(** [Component::Component] with the in-class member initialisers. *)
Definition Component_new (k : UnitKind) : Component :=
  {| kind := k; volume := 1000; flowRate := 100; HRT := 10; SRT := 20;
     temperature := 20.0; inletWater := Water_new; outletWater := Water_new;
     removalEfficiencies := ∅ |}.

Definition addRemovalEfficiency (this : Component) (param : WaterParameter)
    (efficiency : R) : Component :=
  set_removalEfficiencies this (<[param := efficiency]> (removalEfficiencies this)).

Definition removeRemovalEfficiency (this : Component) (param : WaterParameter)
    : Component :=
  set_removalEfficiencies this (delete param (removalEfficiencies this)).

(** [if (outletWater.getParameter(DO) < 0) outletWater.updateParameter(DO, 0);] *)
Definition clamp_DO (out : Water) : Water :=
  if Rlt_dec (getParameter out DO) 0 then updateParameter out DO 0 else out.

(** [Component::simulate], inherited by [Inlet], [Outlet]. *)
Definition Component_simulate (this : Component) (deltaTime : R) : Component :=
  set_outletWater this (inletWater this).

Definition PrimaryClarifier_simulate (this : Component) (deltaTime : R) : Component :=
  let inW := inletWater this in
  let removalEfficiencyTSS := 0.70 in
  let removalEfficiencyOIL := 0.90 in
  let out := inW in
  let out := updateParameter out TSS (getParameter inW TSS * (1 - removalEfficiencyTSS)) in
  let out := updateParameter out OIL (getParameter inW OIL * (1 - removalEfficiencyOIL)) in
  let out := updateParameter out TURBIDITY (getParameter inW TURBIDITY * 0.8) in
  set_outletWater this out.

Definition ElectrocoagulationUnit_simulate (this : Component) (deltaTime : R) : Component :=
  let inW := inletWater this in
  let removalEfficiencyMETALS := 0.80 in
  let removalEfficiencyTSS := 0.60 in
  let pH_adjustment := 0.5 in
  let EC_adjustment := 200.0 in
  let out := inW in
  let out := updateParameter out METALS (getParameter inW METALS * (1 - removalEfficiencyMETALS)) in
  let out := updateParameter out TSS (getParameter inW TSS * (1 - removalEfficiencyTSS)) in
  let out := updateParameter out PH (getParameter inW PH + pH_adjustment) in
  let out := updateParameter out EC (getParameter inW EC + EC_adjustment) in
  set_outletWater this out.

Definition Filtration_simulate (this : Component) (deltaTime : R) : Component :=
  let inW := inletWater this in
  let removalEfficiencyTSS := 0.80 in
  let removalEfficiencyTURB := 0.70 in
  let out := inW in
  let out := updateParameter out TSS (getParameter inW TSS * (1 - removalEfficiencyTSS)) in
  let out := updateParameter out TURBIDITY (getParameter inW TURBIDITY * (1 - removalEfficiencyTURB)) in
  set_outletWater this out.

Definition AnaerobicAerobicFilter_simulate (this : Component) (deltaTime : R) : Component :=
  let inW := inletWater this in
  let k_bod := 0.2 in
  let k_cod := 0.1 in
  let k_nh4 := 0.05 in
  let tempFactor := Rpower 1.035 (getParameter inW TEMP - 20.0) in
  let BOD_in := getParameter inW BOD in
  let COD_in := getParameter inW COD in
  let NH4_in := getParameter inW NH4 in
  let BOD_removal := BOD_in * (1 - exp (- k_bod * HRT this * tempFactor)) in
  let COD_removal := COD_in * (1 - exp (- k_cod * HRT this * tempFactor)) in
  let NH4_removal := NH4_in * (1 - exp (- k_nh4 * HRT this * tempFactor)) in
  let out := inW in
  let out := updateParameter out BOD (BOD_in - BOD_removal) in
  let out := updateParameter out COD (COD_in - COD_removal) in
  let out := updateParameter out NH4 (NH4_in - NH4_removal) in
  let out := updateParameter out NO3 (getParameter inW NO3 + NH4_removal * 0.9) in
  let DO_consumed := (BOD_removal + COD_removal + NH4_removal * 4.57) * 1.5 in
  let out := updateParameter out DO (getParameter inW DO - DO_consumed) in
  let out := clamp_DO out in
  set_outletWater this out.

Definition OzoneDisinfection_simulate (this : Component) (deltaTime : R) : Component :=
  let inW := inletWater this in
  let pathogen_removal := getParameter inW PATHOGENS * 0.999 in
  let oxidationEfficiency := 0.90 in
  let out := inW in
  let out := updateParameter out PATHOGENS (getParameter inW PATHOGENS - pathogen_removal) in
  let out := updateParameter out COD (getParameter inW COD * (1 - oxidationEfficiency)) in
  let out := updateParameter out TSS (getParameter inW TSS * (1 - oxidationEfficiency)) in
  set_outletWater this out.

Definition MBR_simulate (this : Component) (deltaTime : R) : Component :=
  let inW := inletWater this in
  let k_bod := 0.1 in
  let k_cod := 0.05 in
  let k_nh4 := 0.03 in
  let tempFactor := Rpower 1.035 (getParameter inW TEMP - 20.0) in
  let BOD_in := getParameter inW BOD in
  let COD_in := getParameter inW COD in
  let NH4_in := getParameter inW NH4 in
  let BOD_removal := BOD_in * (1 - exp (- k_bod * HRT this * tempFactor)) in
  let COD_removal := COD_in * (1 - exp (- k_cod * HRT this * tempFactor)) in
  let NH4_removal := NH4_in * (1 - exp (- k_nh4 * HRT this * tempFactor)) in
  let out := inW in
  let out := updateParameter out BOD (BOD_in - BOD_removal) in
  let out := updateParameter out COD (COD_in - COD_removal) in
  let out := updateParameter out NH4 (NH4_in - NH4_removal) in
  let out := updateParameter out NO3 (getParameter inW NO3 + NH4_removal * 0.9) in
  let DO_consumed := (BOD_removal + COD_removal + NH4_removal * 4.57) * 1.5 in
  let out := updateParameter out DO (getParameter inW DO - DO_consumed) in
  let out := clamp_DO out in
  set_outletWater this out.

Definition Biofilter_simulate (this : Component) (deltaTime : R) : Component :=
  let inW := inletWater this in
  let k_bod := 0.2 in
  let k_cod := 0.1 in
  let k_nh4 := 0.05 in
  let tempFactor := Rpower 1.035 (getParameter inW TEMP - 20.0) in
  let BOD_in := getParameter inW BOD in
  let COD_in := getParameter inW COD in
  let NH4_in := getParameter inW NH4 in
  let BOD_removal := BOD_in * (1 - exp (- k_bod * HRT this * tempFactor)) in
  let COD_removal := COD_in * (1 - exp (- k_cod * HRT this * tempFactor)) in
  let NH4_removal := NH4_in * (1 - exp (- k_nh4 * HRT this * tempFactor)) in
  let out := inW in
  let out := updateParameter out BOD (BOD_in - BOD_removal) in
  let out := updateParameter out COD (COD_in - COD_removal) in
  let out := updateParameter out NH4 (NH4_in - NH4_removal) in
  let out := updateParameter out NO3 (getParameter inW NO3 + NH4_removal * 0.9) in
  let DO_consumed := (BOD_removal + COD_removal + NH4_removal * 4.57) * 1.5 in
  let out := updateParameter out DO (getParameter inW DO - DO_consumed) in
  let out := clamp_DO out in
  set_outletWater this out.

Definition PrimarySedimentationTank_simulate (this : Component) (deltaTime : R) : Component :=
  let inW := inletWater this in
  let removalEfficiencyTSS := 0.60 in
  let removalEfficiencyBOD := 0.35 in
  let removalEfficiencyPathogen := 0.60 in
  let out := inW in
  let out := updateParameter out TSS (getParameter inW TSS * (1 - removalEfficiencyTSS)) in
  let out := updateParameter out BOD (getParameter inW BOD * (1 - removalEfficiencyBOD)) in
  let out := updateParameter out TURBIDITY (getParameter inW TURBIDITY * 0.5) in
  let out := updateParameter out PATHOGENS (getParameter inW PATHOGENS * (1 - removalEfficiencyPathogen)) in
  set_outletWater this out.

Definition AerationTank_simulate (this : Component) (deltaTime : R) : Component :=
  let inW := inletWater this in
  let k_bod := 0.2 in
  let k_nh4 := 0.1 in
  let tempFactor := Rpower 1.035 (getParameter inW TEMP - 20.0) in
  let BOD_in := getParameter inW BOD in
  let NH4_in := getParameter inW NH4 in
  let BOD_removal := BOD_in * (1 - exp (- k_bod * HRT this * tempFactor)) in
  let NH4_removal := NH4_in * (1 - exp (- k_nh4 * HRT this * tempFactor)) in
  let out := inW in
  let out := updateParameter out BOD (BOD_in - BOD_removal) in
  let out := updateParameter out NH4 (NH4_in - NH4_removal) in
  let out := updateParameter out NO3 (getParameter inW NO3 + NH4_removal * 0.9) in
  let DO_consumed := (BOD_removal + NH4_removal * 4.57) * 1.5 in
  let out := updateParameter out DO (getParameter inW DO - DO_consumed) in
  let out := clamp_DO out in
  set_outletWater this out.

Definition SecondaryClarifier_simulate (this : Component) (deltaTime : R) : Component :=
  let inW := inletWater this in
  let TSS_removal := getParameter inW TSS * 0.85 in
  let out := inW in
  let out := updateParameter out TSS (getParameter inW TSS - TSS_removal) in
  let out := updateParameter out TURBIDITY (getParameter inW TURBIDITY * 0.7) in
  set_outletWater this out.

Definition ChlorineDisinfectionUnit_simulate (this : Component) (deltaTime : R) : Component :=
  let inW := inletWater this in
  let pathogen_removal := getParameter inW PATHOGENS * 0.99999 in
  let out := inW in
  let out := updateParameter out PATHOGENS (getParameter inW PATHOGENS - pathogen_removal) in
  let out := updateParameter out RESIDUAL_CHLORINE 0.7 in
  let out := updateParameter out CHLORIDES (getParameter inW CHLORIDES * 1.46) in
  set_outletWater this out.

Definition NitrificationTank_simulate (this : Component) (deltaTime : R) : Component :=
  let inW := inletWater this in
  let k_nh4 := 0.1 in
  let tempFactor := Rpower 1.035 (getParameter inW TEMP - 20.0) in
  let alkalinityremoval := 0.5 in
  let NH4_in := getParameter inW NH4 in
  let NO3_in := getParameter inW NO3 in
  let NH4_removal := NH4_in * (1 - exp (- k_nh4 * HRT this * tempFactor)) in
  let NO3_generated := NH4_removal * 0.9 in
  let out := inW in
  let out := updateParameter out NH4 (NH4_in - NH4_removal) in
  let out := updateParameter out NO3 (NO3_in + NO3_generated) in
  let out := updateParameter out ALKALINITY (getParameter inW ALKALINITY - alkalinityremoval) in
  set_outletWater this out.

Definition UVDisinfection_simulate (this : Component) (deltaTime : R) : Component :=
  let inW := inletWater this in
  let pathogen_removal := getParameter inW PATHOGENS * 0.999 in
  let out := inW in
  let out := updateParameter out PATHOGENS (getParameter inW PATHOGENS - pathogen_removal) in
  set_outletWater this out.

Definition AnaerobicFilter_simulate (this : Component) (deltaTime : R) : Component :=
  let inW := inletWater this in
  let COD_in := getParameter inW COD in
  let COD_removal := COD_in * 0.65 in
  let out := inW in
  let out := updateParameter out COD (COD_in - COD_removal) in
  set_outletWater this out.

Definition CoagulationFlocculation_simulate (this : Component) (deltaTime : R) : Component :=
  let inW := inletWater this in
  let COD_removal := getParameter inW COD * 0.40 in
  let TSS_removal := getParameter inW TSS * 0.60 in
  let out := inW in
  let out := updateParameter out COD (getParameter inW COD - COD_removal) in
  let out := updateParameter out TSS (getParameter inW TSS - TSS_removal) in
  set_outletWater this out.

Definition MembraneFiltration_simulate (this : Component) (deltaTime : R) : Component :=
  let inW := inletWater this in
  let COD_removal := getParameter inW COD * 0.20 in
  let TSS_removal := getParameter inW TSS * 0.45 in
  let pathogen_removal := getParameter inW PATHOGENS * 0.9999 in
  let out := inW in
  let out := updateParameter out COD (getParameter inW COD - COD_removal) in
  let out := updateParameter out TSS (getParameter inW TSS - TSS_removal) in
  let out := updateParameter out PATHOGENS (getParameter inW PATHOGENS - pathogen_removal) in
  set_outletWater this out.

Definition ChemicalOxidation_simulate (this : Component) (deltaTime : R) : Component :=
  let inW := inletWater this in
  let COD_removal := getParameter inW COD * 0.70 in
  let out := inW in
  let out := updateParameter out COD (getParameter inW COD - COD_removal) in
  let out := updateParameter out TURBIDITY (getParameter inW TURBIDITY * 0.8) in
  set_outletWater this out.

Definition ActiveSludgeProcess_simulate (this : Component) (deltaTime : R) : Component :=
  let inW := inletWater this in
  let k_bod := 0.2 in
  let k_nh4 := 0.1 in
  let tempFactor := Rpower 1.035 (getParameter inW TEMP - 20.0) in
  let BOD_in := getParameter inW BOD in
  let NH4_in := getParameter inW NH4 in
  let BOD_removal := BOD_in * (1 - exp (- k_bod * HRT this * tempFactor)) in
  let NH4_removal := NH4_in * (1 - exp (- k_nh4 * HRT this * tempFactor)) in
  let out := inW in
  let out := updateParameter out BOD (BOD_in - BOD_removal) in
  let out := updateParameter out NH4 (NH4_in - NH4_removal) in
  let out := updateParameter out NO3 (getParameter inW NO3 + NH4_removal * 0.9) in
  let DO_consumed := (BOD_removal + NH4_removal * 4.57) * 1.5 in
  let out := updateParameter out DO (getParameter inW DO - DO_consumed) in
  let out := clamp_DO out in
  let COD_removal := getParameter inW COD * 0.79 in
  let out := updateParameter out COD (getParameter inW COD - COD_removal) in
  set_outletWater this out.

Definition SludgeDigester_simulate (this : Component) (deltaTime : R) : Component :=
  let inW := inletWater this in
  let VSS_removal := getParameter inW TSS * 0.55 in
  let out := inW in
  let out := updateParameter out TSS (getParameter inW TSS - VSS_removal) in
  set_outletWater this out.

Definition OilSeparator_simulate (this : Component) (deltaTime : R) : Component :=
  let inW := inletWater this in
  let oil_removal := getParameter inW OIL * 0.90 in
  let out := inW in
  let out := updateParameter out OIL (getParameter inW OIL - oil_removal) in
  let out := updateParameter out TURBIDITY (getParameter inW TURBIDITY * 0.9) in
  set_outletWater this out.

Definition PhosphorusRemovalUnit_simulate (this : Component) (deltaTime : R) : Component :=
  let inW := inletWater this in
  let P_removal := getParameter inW P * 0.75 in
  let out := inW in
  let out := updateParameter out P (getParameter inW P - P_removal) in
  let out := updateParameter out TSS (getParameter inW TSS + P_removal * 2) in
  set_outletWater this out.

Definition DryingBed_simulate (this : Component) (deltaTime : R) : Component :=
  let inW := inletWater this in
  let moisture_removal := getParameter inW TSS * 0.95 in
  let out := inW in
  let out := updateParameter out TSS (getParameter inW TSS - moisture_removal) in
  set_outletWater this out.

Definition Pump_simulate (this : Component) (deltaTime : R) : Component :=
  set_outletWater this (inletWater this).

Definition FlowMeter_simulate (this : Component) (deltaTime : R) : Component :=
  set_outletWater this (inletWater this).

Definition WaterSoftener_simulate (this : Component) (deltaTime : R) : Component :=
  let inW := inletWater this in
  let hardness_removal := getParameter inW HARDNESS * 0.90 in
  let out := inW in
  let out := updateParameter out HARDNESS (getParameter inW HARDNESS - hardness_removal) in
  set_outletWater this out.

Definition ActivatedCarbonFilter_simulate (this : Component) (deltaTime : R) : Component :=
  let inW := inletWater this in
  let COD_removal := getParameter inW COD * 0.30 in
  let out := inW in
  let out := updateParameter out COD (getParameter inW COD - COD_removal) in
  set_outletWater this out.

Definition HeatExchanger_simulate (this : Component) (deltaTime : R) : Component :=
  let inW := inletWater this in
  let out := inW in
  let out := updateParameter out TEMP 25.0 in
  set_outletWater this out.

Definition MetalsRemovalUnit_simulate (this : Component) (deltaTime : R) : Component :=
  let inW := inletWater this in
  let metals_removal := getParameter inW METALS * 0.85 in
  let out := inW in
  let out := updateParameter out METALS (getParameter inW METALS - metals_removal) in
  set_outletWater this out.

Definition MembraneFiltrationUnit_simulate (this : Component) (deltaTime : R) : Component :=
  let inW := inletWater this in
  let pathogens_removal := getParameter inW PATHOGENS * 0.9999 in
  let TSS_removal := getParameter inW TSS * 0.99 in
  let out := inW in
  let out := updateParameter out PATHOGENS (getParameter inW PATHOGENS - pathogens_removal) in
  let out := updateParameter out TSS (getParameter inW TSS - TSS_removal) in
  set_outletWater this out.

Definition ReverseOsmosisUnit_simulate (this : Component) (deltaTime : R) : Component :=
  let inW := inletWater this in
  let salinity_removal := getParameter inW SALINITY * 0.95 in
  let EC_removal := getParameter inW EC * 0.95 in
  let out := inW in
  let out := updateParameter out SALINITY (getParameter inW SALINITY - salinity_removal) in
  let out := updateParameter out EC (getParameter inW EC * 0.05) in
  set_outletWater this out.

(** The virtual call [comp->simulate(deltaTime)]: dispatch on the dynamic
    type.  [Inlet] and [Outlet] do not override [Component::simulate]. *)
Definition simulate (this : Component) (deltaTime : R) : Component :=
  match kind this with
  | Inlet | Outlet => Component_simulate this deltaTime
  | PrimaryClarifier => PrimaryClarifier_simulate this deltaTime
  | ElectrocoagulationUnit => ElectrocoagulationUnit_simulate this deltaTime
  | Filtration => Filtration_simulate this deltaTime
  | AnaerobicAerobicFilter => AnaerobicAerobicFilter_simulate this deltaTime
  | OzoneDisinfection => OzoneDisinfection_simulate this deltaTime
  | MBR => MBR_simulate this deltaTime
  | Biofilter => Biofilter_simulate this deltaTime
  | PrimarySedimentationTank => PrimarySedimentationTank_simulate this deltaTime
  | AerationTank => AerationTank_simulate this deltaTime
  | SecondaryClarifier => SecondaryClarifier_simulate this deltaTime
  | ChlorineDisinfectionUnit => ChlorineDisinfectionUnit_simulate this deltaTime
  | NitrificationTank => NitrificationTank_simulate this deltaTime
  | UVDisinfection => UVDisinfection_simulate this deltaTime
  | AnaerobicFilter => AnaerobicFilter_simulate this deltaTime
  | CoagulationFlocculation => CoagulationFlocculation_simulate this deltaTime
  | MembraneFiltration => MembraneFiltration_simulate this deltaTime
  | ChemicalOxidation => ChemicalOxidation_simulate this deltaTime
  | ActiveSludgeProcess => ActiveSludgeProcess_simulate this deltaTime
  | SludgeDigester => SludgeDigester_simulate this deltaTime
  | OilSeparator => OilSeparator_simulate this deltaTime
  | PhosphorusRemovalUnit => PhosphorusRemovalUnit_simulate this deltaTime
  | DryingBed => DryingBed_simulate this deltaTime
  | Pump => Pump_simulate this deltaTime
  | FlowMeter => FlowMeter_simulate this deltaTime
  | WaterSoftener => WaterSoftener_simulate this deltaTime
  | ActivatedCarbonFilter => ActivatedCarbonFilter_simulate this deltaTime
  | HeatExchanger => HeatExchanger_simulate this deltaTime
  | MetalsRemovalUnit => MetalsRemovalUnit_simulate this deltaTime
  | MembraneFiltrationUnit => MembraneFiltrationUnit_simulate this deltaTime
  | ReverseOsmosisUnit => ReverseOsmosisUnit_simulate this deltaTime
  end.

End ComponentModel.

(** ** The simulation tick of [main] *)

(** The first loop of the tick,
    [for (size_t i = 0; i < components.size(); ++i) {
       if (i == 0) continue;
       components[i]->simulate(deltaTime); }].
    The state is the vector together with a log of the indices on which
    [simulate] was called, in call order; the log is not program state,
    it records the calls. *)
Definition simulate_body (deltaTime : R) (st : list Component * list nat)
    (i : nat) : list Component * list nat :=
  if decide (i = 0) then st
  else match st.1 !! i with
       | Some comp => (<[i := simulate comp deltaTime]> st.1, st.2 ++ [i])
       | None => st
       end.

Definition simulate_pass_logged (deltaTime : R) (components : list Component)
    : list Component * list nat :=
  fold_left (simulate_body deltaTime) (seq 0 (length components)) (components, []).

Definition simulate_pass (deltaTime : R) (components : list Component)
    : list Component :=
  (simulate_pass_logged deltaTime components).1.

(** The second loop,
    [for (size_t i = 1; i < components.size(); ++i)
       components[i]->inletWater = components[i - 1]->outletWater;]. *)
Definition propagate_body (components : list Component) (i : nat)
    : list Component :=
  match components !! i, components !! (i - 1) with
  | Some comp, Some prev =>
      <[i := set_inletWater comp (outletWater prev)]> components
  | _, _ => components
  end.

Definition propagate_pass (components : list Component) : list Component :=
  fold_left propagate_body (seq 1 (length components - 1)) components.

(** One simulation step on the vector of components: both loops. *)
Definition step (deltaTime : R) (components : list Component)
    : list Component :=
  propagate_pass (simulate_pass deltaTime components).

(** [main] starts with [components = {inlet, outlet}]; the "Add" button
    runs [components.insert(components.end() - 1, comp)] with a freshly
    constructed component. *)
Definition initial_components : list Component :=
  [Component_new Inlet; Component_new Outlet].

Definition add_component (k : UnitKind) (components : list Component)
    : list Component :=
  take (length components - 1) components ++ [Component_new k]
    ++ drop (length components - 1) components.

(** ** struct ParameterHistory and updateHistories *)

Record ParameterHistory : Type := mkParameterHistory {
  values : list R;
  maxSize : nat
}.

(** [ParameterHistory(size_t size = 100) : maxSize(size) {}]. *)
Definition ParameterHistory_new (size : nat) : ParameterHistory :=
  {| values := []; maxSize := size |}.

Definition ParameterHistory_default : ParameterHistory :=
  ParameterHistory_new 100.

(** [addValue].  [pop_front] on an empty deque has no defined behaviour;
    that case (only reachable with [maxSize = 0]) yields [None]. *)
Definition addValue (h : ParameterHistory) (val : R) : option ParameterHistory :=
  if decide (maxSize h ≤ length (values h)) then
    match values h with
    | [] => None
    | _ :: rest => Some {| values := rest ++ [val]; maxSize := maxSize h |}
    end
  else Some {| values := values h ++ [val]; maxSize := maxSize h |}.

(** Appending a sequence of values, one [addValue] each, in order. *)
Fixpoint addValues (h : ParameterHistory) (vals : list R)
    : option ParameterHistory :=
  match vals with
  | [] => Some h
  | v :: rest => h' ← addValue h v; addValues h' rest
  end.

(** [parameterHistories[param]]: [std::map::operator[]] default-constructs
    a missing entry. *)
Definition history_at (parameterHistories : gmap WaterParameter ParameterHistory)
    (param : WaterParameter) : ParameterHistory :=
  default ParameterHistory_default (parameterHistories !! param).

(** The body of the inner loop of [updateHistories]. *)
Definition record_parameter (comp : Component)
    (st : option (gmap WaterParameter ParameterHistory)) (param : WaterParameter)
    : option (gmap WaterParameter ParameterHistory) :=
  hs ← st;
  h' ← addValue (history_at hs param) (getParameter (outletWater comp) param);
  Some (<[param := h']> hs).

(** The body of the outer loop: the entries of [comp->outletWater.parameters]
    in key order. *)
Definition record_component
    (st : option (gmap WaterParameter ParameterHistory)) (comp : Component)
    : option (gmap WaterParameter ParameterHistory) :=
  fold_left (record_parameter comp) all_parameters st.

Definition updateHistories (components : list Component)
    (parameterHistories : gmap WaterParameter ParameterHistory)
    : option (gmap WaterParameter ParameterHistory) :=
  fold_left record_component components (Some parameterHistories).

(** The simulating branch of the main loop: the step, then the histories. *)
Record SimState : Type := mkSimState {
  components : list Component;
  parameterHistories : gmap WaterParameter ParameterHistory
}.

Definition tick (deltaTime : R) (s : SimState) : option SimState :=
  let cs := step deltaTime (components s) in
  hs ← updateHistories cs (parameterHistories s);
  Some {| components := cs; parameterHistories := hs |}.

(** The values [updateHistories] appends to the series of [param]: the
    outlet value of every component, in vector order. *)
Definition recorded_values (param : WaterParameter) (components : list Component)
    : list R :=
  map (fun comp => getParameter (outletWater comp) param) components.

(** ** The rest of the program: labels, topology edits, pipe colours *)

(** [parameterToString]; the [default] branch of the switch is not
    reachable from a value of the enumeration. *)
Definition parameterToString (param : WaterParameter) : string :=
  match param with
  | BOD => "BOD (mg/L)"
  | COD => "COD (mg/L)"
  | TSS => "TSS (mg/L)"
  | NH4 => "NH₄⁺ (mg/L)"
  | NO3 => "NO₃⁻ (mg/L)"
  | PH => "pH"
  | P => "Total Phosphorus (mg/L)"
  | OIL => "Oils and Greases (mg/L)"
  | DO => "Dissolved Oxygen (mg/L)"
  | TEMP => "Temperature (°C)"
  | PATHOGENS => "Pathogens (CFU/mL)"
  | SALINITY => "Salinity (ppt)"
  | TURBIDITY => "Turbidity (NTU)"
  | EC => "Electrical Conductivity (µS/cm)"
  | ALKALINITY => "Alkalinity (mg CaCO₃/L)"
  | RESIDUAL_CHLORINE => "Residual Chlorine (mg/L)"
  | HARDNESS => "Total Hardness (mg CaCO₃/L)"
  | SULFATES => "Sulfates (mg/L)"
  | CHLORIDES => "Chlorides (mg/L)"
  | METALS => "Heavy Metals (mg/L)"
  end.

(** The entries of the "Type" combo box, [componentTypes]. *)
Definition componentTypes : list string :=
  ["Primary Sedimentation Tank"; "Primary Clarifier"; "Aeration Tank";
   "Secondary Clarifier"; "Chlorine Disinfection Unit"; "UV Disinfection";
   "Anaerobic Filter"; "Sludge Digester"; "Oil and Grease Separator";
   "Phosphorus Removal Unit"; "Drying Bed"; "Pump"; "Flow Meter";
   "Water Softener"; "Activated Carbon Filter"; "Heat Exchanger";
   "Metals Removal Unit"; "Membrane Filtration Unit"; "Reverse Osmosis Unit";
   "Coagulation and Flocculation"; "Membrane Filtration"; "Chemical Oxidation";
   "Active Sludge Process"; "Nitrification Tank"; "Biofilter"; "Filtration";
   "Membrane Bioreactor"; "Ozone Disinfection"; "Anaerobic-Aerobic Treatment";
   "Electrocoagulation Unit"].

(** The [if]/[else if] chain behind the "Add" button: the class
    constructed for a type name, [None] when [comp] stays [nullptr]. *)
Definition create_component (newComponentType : string) : option UnitKind :=
  if decide (newComponentType = "Primary Sedimentation Tank") then Some PrimarySedimentationTank
  else if decide (newComponentType = "Primary Clarifier") then Some PrimaryClarifier
  else if decide (newComponentType = "Aeration Tank") then Some AerationTank
  else if decide (newComponentType = "Secondary Clarifier") then Some SecondaryClarifier
  else if decide (newComponentType = "Chlorine Disinfection Unit") then Some ChlorineDisinfectionUnit
  else if decide (newComponentType = "UV Disinfection") then Some UVDisinfection
  else if decide (newComponentType = "Anaerobic Filter") then Some AnaerobicFilter
  else if decide (newComponentType = "Sludge Digester") then Some SludgeDigester
  else if decide (newComponentType = "Oil and Grease Separator") then Some OilSeparator
  else if decide (newComponentType = "Phosphorus Removal Unit") then Some PhosphorusRemovalUnit
  else if decide (newComponentType = "Drying Bed") then Some DryingBed
  else if decide (newComponentType = "Pump") then Some Pump
  else if decide (newComponentType = "Flow Meter") then Some FlowMeter
  else if decide (newComponentType = "Water Softener") then Some WaterSoftener
  else if decide (newComponentType = "Activated Carbon Filter") then Some ActivatedCarbonFilter
  else if decide (newComponentType = "Heat Exchanger") then Some HeatExchanger
  else if decide (newComponentType = "Metals Removal Unit") then Some MetalsRemovalUnit
  else if decide (newComponentType = "Membrane Filtration Unit") then Some MembraneFiltrationUnit
  else if decide (newComponentType = "Reverse Osmosis Unit") then Some ReverseOsmosisUnit
  else if decide (newComponentType = "Coagulation and Flocculation") then Some CoagulationFlocculation
  else if decide (newComponentType = "Membrane Filtration") then Some MembraneFiltration
  else if decide (newComponentType = "Chemical Oxidation") then Some ChemicalOxidation
  else if decide (newComponentType = "Active Sludge Process") then Some ActiveSludgeProcess
  else if decide (newComponentType = "Nitrification Unit") then Some NitrificationTank
  else if decide (newComponentType = "Biofilter Unit") then Some Biofilter
  else if decide (newComponentType = "Filtration") then Some Filtration
  else if decide (newComponentType = "Membrane Bioreactor") then Some MBR
  else if decide (newComponentType = "Ozonation Unit") then Some OzoneDisinfection
  else if decide (newComponentType = "Anaerobic-Aerobic Treatment") then Some AnaerobicAerobicFilter
  else if decide (newComponentType = "Electrocoagulation Unit") then Some ElectrocoagulationUnit
  else None.

(** The "Add" button: [if (comp) components.insert(components.end() - 1, comp)]. *)
Definition add_button (newComponentType : string) (components : list Component)
    : list Component :=
  match create_component newComponentType with
  | Some k => add_component k components
  | None => components
  end.

(** The "Remove" button.  It is drawn for [components[i]] only in the
    last branch of [if (i == 0) ... else if (i == components.size() - 1)
    ... else ...], inside the loop over [i < components.size()]; it runs
    [components.erase(components.begin() + i)]. *)
Definition remove_component (i : nat) (components : list Component)
    : list Component :=
  if decide (i < length components ∧ i ≠ 0 ∧ i ≠ length components - 1)
  then delete i components
  else components.

(** The "Reset" button: every component but [inlet] and [outlet] is
    deleted and the vector becomes [{inlet, outlet}].  The two objects
    are the first and the last element of the vector throughout. *)
Definition reset (components : list Component) : list Component :=
  match head components, last components with
  | Some inlet, Some outlet => [inlet; outlet]
  | _, _ => components
  end.

(** "Load Default Example": [defaultComponents] and its own chain of
    comparisons.  There the pointer is inserted without a null test;
    [None] stands for a vector holding a null pointer. *)
Definition defaultComponents : list string :=
  ["Primary Clarifier"; "Primary Sedimentation Tank"; "Aeration Tank";
   "Active Sludge Process"; "Nitrification Unit"; "Secondary Clarifier";
   "Chlorine Disinfection Unit"; "Filtration"].

Definition create_default_component (type : string) : option UnitKind :=
  if decide (type = "Primary Clarifier") then Some PrimaryClarifier
  else if decide (type = "Primary Sedimentation Tank") then Some PrimarySedimentationTank
  else if decide (type = "Aeration Tank") then Some AerationTank
  else if decide (type = "Active Sludge Process") then Some ActiveSludgeProcess
  else if decide (type = "Nitrification Unit") then Some NitrificationTank
  else if decide (type = "Secondary Clarifier") then Some SecondaryClarifier
  else if decide (type = "Chlorine Disinfection Unit") then Some ChlorineDisinfectionUnit
  else if decide (type = "Filtration") then Some Filtration
  else None.

Definition load_default_example (components : list Component)
    : option (list Component) :=
  fold_left
    (fun acc type =>
       cs ← acc; k ← create_default_component type; Some (add_component k cs))
    defaultComponents (Some (reset components)).

(** ** binary32 outside the reals: infinities and NaN

    The definitions above read a [float] as a real number.  Where a
    result leaves the binary32 range the program goes on with an infinity
    or with NaN; the definitions of this part follow it there.  A finite
    value is still read as a real (rounding is left out): a [float32] is
    such a value, an infinity or NaN, and the operations are those of
    IEEE 754 on the special values, a finite result beyond [FLT_MAX]
    becoming an infinity. *)
Inductive float32 : Type :=
  | Fin (r : R)
  | PInf
  | NInf
  | NaN.

(** The largest finite binary32 number, [(2^24 - 1) * 2^104]. *)
Definition FLT_MAX : R := 340282346638528859811704183484516925440.

Section Binary32Model.
Local Open Scope R_scope.

(** The binary32 result of an operation whose exact result is [r]. *)
Definition of_real (r : R) : float32 :=
  if Rlt_dec FLT_MAX r then PInf
  else if Rlt_dec r (- FLT_MAX) then NInf
  else Fin r.

Definition f32_neg (x : float32) : float32 :=
  match x with
  | Fin a => Fin (- a)
  | PInf => NInf
  | NInf => PInf
  | NaN => NaN
  end.

Definition f32_add (x y : float32) : float32 :=
  match x, y with
  | NaN, _ | _, NaN => NaN
  | Fin a, Fin b => of_real (a + b)
  | PInf, NInf | NInf, PInf => NaN
  | PInf, _ | _, PInf => PInf
  | NInf, _ | _, NInf => NInf
  end.

Definition f32_sub (x y : float32) : float32 := f32_add x (f32_neg y).

(** An infinity times a finite value: the sign decides, zero gives NaN. *)
Definition f32_scale_inf (positive : bool) (a : R) : float32 :=
  if Rlt_dec 0 a then (if positive then PInf else NInf)
  else if Rlt_dec a 0 then (if positive then NInf else PInf)
  else NaN.

Definition f32_mul (x y : float32) : float32 :=
  match x, y with
  | NaN, _ | _, NaN => NaN
  | Fin a, Fin b => of_real (a * b)
  | Fin a, PInf | PInf, Fin a => f32_scale_inf true a
  | Fin a, NInf | NInf, Fin a => f32_scale_inf false a
  | PInf, PInf | NInf, NInf => PInf
  | PInf, NInf | NInf, PInf => NInf
  end.

(** [std::exp]. *)
Definition f32_exp (x : float32) : float32 :=
  match x with
  | Fin a => of_real (exp a)
  | PInf => PInf
  | NInf => Fin 0
  | NaN => NaN
  end.

(** [std::pow] for a finite base above one; the program's only base is
    [1.035f]. *)
Definition f32_pow (base : R) (y : float32) : float32 :=
  match y with
  | Fin a => of_real (Rpower base a)
  | PInf => PInf
  | NInf => Fin 0
  | NaN => NaN
  end.

(** [x < y]: false as soon as one side is NaN. *)
Definition f32_lt (x y : float32) : bool :=
  match x, y with
  | NaN, _ | _, NaN => false
  | Fin a, Fin b => if Rlt_dec a b then true else false
  | NInf, NInf => false
  | NInf, _ => true
  | _, PInf => match x with PInf => false | _ => true end
  | _, _ => false
  end.

(** [x > y] is [y < x]. *)
Definition f32_gt (x y : float32) : bool := f32_lt y x.

(** [x <= y]: false as soon as one side is NaN. *)
Definition f32_le (x y : float32) : bool :=
  match x, y with
  | NaN, _ | _, NaN => false
  | _, _ => negb (f32_lt y x)
  end.

(** [x >= y] is [y <= x]. *)
Definition f32_ge (x y : float32) : bool := f32_le y x.

Definition Water32 : Type := WaterParameter -> float32.

Definition updateParameter32 (w : Water32) (param : WaterParameter)
    (value : float32) : Water32 :=
  fun q => if decide (q = param) then value else w q.

(** A water of real values as the program holds it. *)
Definition Water32_of (w : Water) : Water32 := fun p => Fin (w p).

(** [AerationTank::simulate] on [float32]: the outlet for a retention
    time and an inlet water. *)
Definition AerationTank_simulate_binary32 (HRT : float32) (inletWater : Water32)
    : Water32 :=
  let k_bod := Fin 0.2 in
  let k_nh4 := Fin 0.1 in
  let tempFactor := f32_pow 1.035 (f32_sub (inletWater TEMP) (Fin 20.0)) in
  let BOD_in := inletWater BOD in
  let NH4_in := inletWater NH4 in
  let BOD_removal :=
    f32_mul BOD_in
      (f32_sub (Fin 1) (f32_exp (f32_mul (f32_mul (f32_neg k_bod) HRT) tempFactor))) in
  let NH4_removal :=
    f32_mul NH4_in
      (f32_sub (Fin 1) (f32_exp (f32_mul (f32_mul (f32_neg k_nh4) HRT) tempFactor))) in
  let out := inletWater in
  let out := updateParameter32 out BOD (f32_sub BOD_in BOD_removal) in
  let out := updateParameter32 out NH4 (f32_sub NH4_in NH4_removal) in
  let out := updateParameter32 out NO3
               (f32_add (inletWater NO3) (f32_mul NH4_removal (Fin 0.9))) in
  let DO_consumed :=
    f32_mul (f32_add BOD_removal (f32_mul NH4_removal (Fin 4.57))) (Fin 1.5) in
  let out := updateParameter32 out DO (f32_sub (inletWater DO) DO_consumed) in
  let out := if f32_lt (out DO) (Fin 0) then updateParameter32 out DO (Fin 0)
             else out in
  out.

(** [AnaerobicAerobicFilter::simulate] on [float32]. *)
Definition AnaerobicAerobicFilter_simulate_binary32 (HRT : float32) (inletWater : Water32)
    : Water32 :=
  let k_bod := Fin 0.2 in
  let k_cod := Fin 0.1 in
  let k_nh4 := Fin 0.05 in
  let tempFactor := f32_pow 1.035 (f32_sub (inletWater TEMP) (Fin 20.0)) in
  let BOD_in := inletWater BOD in
  let COD_in := inletWater COD in
  let NH4_in := inletWater NH4 in
  let BOD_removal :=
    f32_mul BOD_in
      (f32_sub (Fin 1) (f32_exp (f32_mul (f32_mul (f32_neg k_bod) HRT) tempFactor))) in
  let COD_removal :=
    f32_mul COD_in
      (f32_sub (Fin 1) (f32_exp (f32_mul (f32_mul (f32_neg k_cod) HRT) tempFactor))) in
  let NH4_removal :=
    f32_mul NH4_in
      (f32_sub (Fin 1) (f32_exp (f32_mul (f32_mul (f32_neg k_nh4) HRT) tempFactor))) in
  let out := inletWater in
  let out := updateParameter32 out BOD (f32_sub BOD_in BOD_removal) in
  let out := updateParameter32 out COD (f32_sub COD_in COD_removal) in
  let out := updateParameter32 out NH4 (f32_sub NH4_in NH4_removal) in
  let out := updateParameter32 out NO3
               (f32_add (inletWater NO3) (f32_mul NH4_removal (Fin 0.9))) in
  let DO_consumed :=
    f32_mul
      (f32_add (f32_add BOD_removal COD_removal) (f32_mul NH4_removal (Fin 4.57)))
      (Fin 1.5) in
  let out := updateParameter32 out DO (f32_sub (inletWater DO) DO_consumed) in
  let out := if f32_lt (out DO) (Fin 0) then updateParameter32 out DO (Fin 0)
             else out in
  out.

(** [MBR::simulate] on [float32]. *)
Definition MBR_simulate_binary32 (HRT : float32) (inletWater : Water32)
    : Water32 :=
  let k_bod := Fin 0.1 in
  let k_cod := Fin 0.05 in
  let k_nh4 := Fin 0.03 in
  let tempFactor := f32_pow 1.035 (f32_sub (inletWater TEMP) (Fin 20.0)) in
  let BOD_in := inletWater BOD in
  let COD_in := inletWater COD in
  let NH4_in := inletWater NH4 in
  let BOD_removal :=
    f32_mul BOD_in
      (f32_sub (Fin 1) (f32_exp (f32_mul (f32_mul (f32_neg k_bod) HRT) tempFactor))) in
  let COD_removal :=
    f32_mul COD_in
      (f32_sub (Fin 1) (f32_exp (f32_mul (f32_mul (f32_neg k_cod) HRT) tempFactor))) in
  let NH4_removal :=
    f32_mul NH4_in
      (f32_sub (Fin 1) (f32_exp (f32_mul (f32_mul (f32_neg k_nh4) HRT) tempFactor))) in
  let out := inletWater in
  let out := updateParameter32 out BOD (f32_sub BOD_in BOD_removal) in
  let out := updateParameter32 out COD (f32_sub COD_in COD_removal) in
  let out := updateParameter32 out NH4 (f32_sub NH4_in NH4_removal) in
  let out := updateParameter32 out NO3
               (f32_add (inletWater NO3) (f32_mul NH4_removal (Fin 0.9))) in
  let DO_consumed :=
    f32_mul
      (f32_add (f32_add BOD_removal COD_removal) (f32_mul NH4_removal (Fin 4.57)))
      (Fin 1.5) in
  let out := updateParameter32 out DO (f32_sub (inletWater DO) DO_consumed) in
  let out := if f32_lt (out DO) (Fin 0) then updateParameter32 out DO (Fin 0)
             else out in
  out.

(** [Biofilter::simulate] on [float32]. *)
Definition Biofilter_simulate_binary32 (HRT : float32) (inletWater : Water32)
    : Water32 :=
  let k_bod := Fin 0.2 in
  let k_cod := Fin 0.1 in
  let k_nh4 := Fin 0.05 in
  let tempFactor := f32_pow 1.035 (f32_sub (inletWater TEMP) (Fin 20.0)) in
  let BOD_in := inletWater BOD in
  let COD_in := inletWater COD in
  let NH4_in := inletWater NH4 in
  let BOD_removal :=
    f32_mul BOD_in
      (f32_sub (Fin 1) (f32_exp (f32_mul (f32_mul (f32_neg k_bod) HRT) tempFactor))) in
  let COD_removal :=
    f32_mul COD_in
      (f32_sub (Fin 1) (f32_exp (f32_mul (f32_mul (f32_neg k_cod) HRT) tempFactor))) in
  let NH4_removal :=
    f32_mul NH4_in
      (f32_sub (Fin 1) (f32_exp (f32_mul (f32_mul (f32_neg k_nh4) HRT) tempFactor))) in
  let out := inletWater in
  let out := updateParameter32 out BOD (f32_sub BOD_in BOD_removal) in
  let out := updateParameter32 out COD (f32_sub COD_in COD_removal) in
  let out := updateParameter32 out NH4 (f32_sub NH4_in NH4_removal) in
  let out := updateParameter32 out NO3
               (f32_add (inletWater NO3) (f32_mul NH4_removal (Fin 0.9))) in
  let DO_consumed :=
    f32_mul
      (f32_add (f32_add BOD_removal COD_removal) (f32_mul NH4_removal (Fin 4.57)))
      (Fin 1.5) in
  let out := updateParameter32 out DO (f32_sub (inletWater DO) DO_consumed) in
  let out := if f32_lt (out DO) (Fin 0) then updateParameter32 out DO (Fin 0)
             else out in
  out.

(** [NitrificationTank::simulate] on [float32]. *)
Definition NitrificationTank_simulate_binary32 (HRT : float32)
    (inletWater : Water32) : Water32 :=
  let k_nh4 := Fin 0.1 in
  let tempFactor := f32_pow 1.035 (f32_sub (inletWater TEMP) (Fin 20.0)) in
  let alkalinityremoval := Fin 0.5 in
  let NH4_in := inletWater NH4 in
  let NO3_in := inletWater NO3 in
  let NH4_removal :=
    f32_mul NH4_in
      (f32_sub (Fin 1) (f32_exp (f32_mul (f32_mul (f32_neg k_nh4) HRT) tempFactor))) in
  let NO3_generated := f32_mul NH4_removal (Fin 0.9) in
  let out := inletWater in
  let out := updateParameter32 out NH4 (f32_sub NH4_in NH4_removal) in
  let out := updateParameter32 out NO3 (f32_add NO3_in NO3_generated) in
  let out := updateParameter32 out ALKALINITY
               (f32_sub (inletWater ALKALINITY) alkalinityremoval) in
  out.

(** [ActiveSludgeProcess::simulate] on [float32]. *)
Definition ActiveSludgeProcess_simulate_binary32 (HRT : float32)
    (inletWater : Water32) : Water32 :=
  let k_bod := Fin 0.2 in
  let k_nh4 := Fin 0.1 in
  let tempFactor := f32_pow 1.035 (f32_sub (inletWater TEMP) (Fin 20.0)) in
  let BOD_in := inletWater BOD in
  let NH4_in := inletWater NH4 in
  let BOD_removal :=
    f32_mul BOD_in
      (f32_sub (Fin 1) (f32_exp (f32_mul (f32_mul (f32_neg k_bod) HRT) tempFactor))) in
  let NH4_removal :=
    f32_mul NH4_in
      (f32_sub (Fin 1) (f32_exp (f32_mul (f32_mul (f32_neg k_nh4) HRT) tempFactor))) in
  let out := inletWater in
  let out := updateParameter32 out BOD (f32_sub BOD_in BOD_removal) in
  let out := updateParameter32 out NH4 (f32_sub NH4_in NH4_removal) in
  let out := updateParameter32 out NO3
               (f32_add (inletWater NO3) (f32_mul NH4_removal (Fin 0.9))) in
  let DO_consumed :=
    f32_mul (f32_add BOD_removal (f32_mul NH4_removal (Fin 4.57))) (Fin 1.5) in
  let out := updateParameter32 out DO (f32_sub (inletWater DO) DO_consumed) in
  let out := if f32_lt (out DO) (Fin 0) then updateParameter32 out DO (Fin 0)
             else out in
  let COD_removal := f32_mul (inletWater COD) (Fin 0.79) in
  let out := updateParameter32 out COD (f32_sub (inletWater COD) COD_removal) in
  out.

(** The binary32 transfer function of a kinetic unit, from its retention
    time and inlet water; the other classes are read over the reals
    only. *)
Definition kinetic_simulate_binary32 (k : UnitKind)
    : option (float32 -> Water32 -> Water32) :=
  match k with
  | AnaerobicAerobicFilter => Some AnaerobicAerobicFilter_simulate_binary32
  | MBR => Some MBR_simulate_binary32
  | Biofilter => Some Biofilter_simulate_binary32
  | AerationTank => Some AerationTank_simulate_binary32
  | NitrificationTank => Some NitrificationTank_simulate_binary32
  | ActiveSludgeProcess => Some ActiveSludgeProcess_simulate_binary32
  | _ => None
  end.

(** [sf::Color] as its red, green and blue components. *)
Definition Color : Type := nat * nat * nat.

Definition Color_Cyan : Color := (0%nat, 255%nat, 255%nat).

(** The colour [Connection::update] gives a new flow particle, from the
    BOD of the upstream outlet. *)
Definition particle_color (bod : float32) : Color :=
  let color := Color_Cyan in
  if f32_gt bod (Fin 200) then (139%nat, 0%nat, 0%nat)
  else if f32_gt bod (Fin 100) then (255%nat, 69%nat, 0%nat)
  else if f32_gt bod (Fin 50) then (255%nat, 165%nat, 0%nat)
  else if f32_gt bod (Fin 10) then (255%nat, 255%nat, 0%nat)
  else (0%nat, 255%nat, 0%nat).

(** A binary32 value that is a number or plus infinity, and not negative. *)
Definition f32_nonneg (x : float32) : Prop :=
  match x with
  | Fin r => 0 <= r
  | PInf => True
  | _ => False
  end.

(** The temperature factor of an inlet water stays finite in binary32. *)
Definition tempFactor_in_range (w : Water) : Prop :=
  Rpower 1.035 (getParameter w TEMP - 20.0) <= FLT_MAX.

(** The default influent at 3000 degrees. *)
Definition hot_inlet : Water := updateParameter Water_new TEMP 3000.

End Binary32Model.

(** [n] passes through the simulating branch of the main loop. *)
Fixpoint ticks (n : nat) (deltaTime : R) (s : SimState) : option SimState :=
  match n with
  | 0 => Some s
  | S n' => s' ← tick deltaTime s; ticks n' deltaTime s'
  end.

(** ** Which parameters a unit writes, and the kinetic family *)

(** The parameters on which the unit's [simulate] calls
    [outletWater.updateParameter]. *)
Definition targets (k : UnitKind) : list WaterParameter :=
  match k with
  | Inlet | Outlet | Pump | FlowMeter => []
  | PrimaryClarifier => [TSS; OIL; TURBIDITY]
  | ElectrocoagulationUnit => [METALS; TSS; PH; EC]
  | Filtration => [TSS; TURBIDITY]
  | AnaerobicAerobicFilter | MBR | Biofilter => [BOD; COD; NH4; NO3; DO]
  | OzoneDisinfection => [PATHOGENS; COD; TSS]
  | PrimarySedimentationTank => [TSS; BOD; TURBIDITY; PATHOGENS]
  | AerationTank => [BOD; NH4; NO3; DO]
  | SecondaryClarifier => [TSS; TURBIDITY]
  | ChlorineDisinfectionUnit => [PATHOGENS; RESIDUAL_CHLORINE; CHLORIDES]
  | NitrificationTank => [NH4; NO3; ALKALINITY]
  | UVDisinfection => [PATHOGENS]
  | AnaerobicFilter => [COD]
  | CoagulationFlocculation => [COD; TSS]
  | MembraneFiltration => [COD; TSS; PATHOGENS]
  | ChemicalOxidation => [COD; TURBIDITY]
  | ActiveSludgeProcess => [BOD; NH4; NO3; DO; COD]
  | SludgeDigester => [TSS]
  | OilSeparator => [OIL; TURBIDITY]
  | PhosphorusRemovalUnit => [P; TSS]
  | DryingBed => [TSS]
  | WaterSoftener => [HARDNESS]
  | ActivatedCarbonFilter => [COD]
  | HeatExchanger => [TEMP]
  | MetalsRemovalUnit => [METALS]
  | MembraneFiltrationUnit => [PATHOGENS; TSS]
  | ReverseOsmosisUnit => [SALINITY; EC]
  end.

(** The units with first-order kinetics and the temperature correction. *)
Definition kinetic_family (k : UnitKind) : bool :=
  match k with
  | AerationTank | Biofilter | AnaerobicAerobicFilter | MBR
  | ActiveSludgeProcess | NitrificationTank => true
  | _ => false
  end.

(** The nitrification rate constant [k_nh4] of a kinetic unit. *)
Definition k_nh4_of (k : UnitKind) : R :=
  match k with
  | AnaerobicAerobicFilter | Biofilter => 0.05%R
  | MBR => 0.03%R
  | _ => 0.1%R
  end.

(** The parameters a unit may leave higher than it found them: nitrate
    from nitrification, pH and conductivity in electrocoagulation,
    chlorine and chlorides in chlorination, precipitate solids in
    phosphorus removal, the temperature in the heat exchanger. *)
Definition raises (k : UnitKind) : list WaterParameter :=
  match k with
  | AnaerobicAerobicFilter | MBR | Biofilter | AerationTank
  | ActiveSludgeProcess | NitrificationTank => [NO3]
  | ElectrocoagulationUnit => [PH; EC]
  | ChlorineDisinfectionUnit => [RESIDUAL_CHLORINE; CHLORIDES]
  | PhosphorusRemovalUnit => [TSS]
  | HeatExchanger => [TEMP]
  | _ => []
  end.

(** ** Vocabulary of the statements *)

Section Vocabulary.
Local Open Scope R_scope.

Definition nonneg (w : Water) : Prop := forall p, 0 <= getParameter w p.

(** What the unit took out of parameter [p] in one invocation. *)
Definition removed (this : Component) (deltaTime : R) (p : WaterParameter) : R :=
  getParameter (inletWater this) p
  - getParameter (outletWater (simulate this deltaTime)) p.

Definition clamp0 (x : R) : R := if Rlt_dec x 0 then 0 else x.

(** The oxygen value the stoichiometric rule prescribes: the inlet value
    less [(BOD_removed + COD_removed + 4.57*NH4_removed) * 1.5], not
    below zero. *)
Definition stoichiometric_DO (this : Component) (deltaTime : R) : R :=
  clamp0 (getParameter (inletWater this) DO
          - (removed this deltaTime BOD + removed this deltaTime COD
             + 4.57 * removed this deltaTime NH4) * 1.5).

(** A vector is linked when every inlet holds the outlet of the
    predecessor, as the second loop leaves it. *)
Definition linked (cs : list Component) : Prop :=
  forall i a b, cs !! i = Some a -> cs !! S i = Some b ->
    inletWater b = outletWater a.

(** The last [cap] elements of a sequence, oldest first. *)
Definition window (cap : nat) (l : list R) : list R :=
  drop (length l - cap) l.

(** The histories after a run of recordings, one [updateHistories] per
    simulated tick. *)
Fixpoint updateHistories_run (css : list (list Component))
    (hs : gmap WaterParameter ParameterHistory)
    : option (gmap WaterParameter ParameterHistory) :=
  match css with
  | [] => Some hs
  | cs :: rest => hs' ← updateHistories cs hs; updateHistories_run rest hs'
  end.

(** Everything a run appends to the series of [param], in arrival order. *)
Definition recorded_run (param : WaterParameter) (css : list (list Component))
    : list R :=
  concat (recorded_values param <$> css).

End Vocabulary.

(** ** Concrete plants and waters used below *)

Section Scenarios.
Local Open Scope R_scope.

(** A primary clarifier whose suspended-solids efficiency is overridden
    to one half. *)
Definition overridden_clarifier : Component :=
  addRemovalEfficiency (Component_new PrimaryClarifier) TSS 0.5.

(** An aeration tank fed water without any dissolved oxygen. *)
Definition anoxic_inlet : Water := updateParameter Water_new DO 0.

(** Raw influent without alkalinity. *)
Definition low_alkalinity_inlet : Water := updateParameter Water_new ALKALINITY 0.

Definition low_alkalinity_tank : Component :=
  set_inletWater (Component_new NitrificationTank) low_alkalinity_inlet.

(** An active-sludge unit fed water with oxygen to spare. *)
Definition oxygen_rich_sludge : Component :=
  set_inletWater (Component_new ActiveSludgeProcess)
    (updateParameter Water_new DO 2000).

(** The inlet component after the influent BOD has been set to 500. *)
Definition edited_source : Component :=
  set_outletWater (Component_new Inlet) (updateParameter Water_new BOD 500).

(** [main]'s vector after that edit, with no treatment unit ... *)
Definition bare_plant : list Component :=
  [edited_source; Component_new Outlet].

(** ... and with a primary sedimentation tank added. *)
Definition edited_chain : list Component :=
  [edited_source; Component_new PrimarySedimentationTank; Component_new Outlet].

(** [main]'s vector after "Add" with type "Aeration Tank". *)
Definition aeration_plant : list Component :=
  add_component AerationTank initial_components.

End Scenarios.

(** ** Vocabulary for the long-run behaviour of the plant *)

(** The transfer function of a unit as a function of the water fed to it. *)
Definition transfer (dt : R) (c : Component) (w : Water) : Water :=
  outletWater (simulate (set_inletWater c w) dt).

(** [b] is the unit [a] with possibly other inlet and outlet waters. *)
Definition same_unit (a b : Component) : Prop :=
  set_outletWater (set_inletWater a (inletWater b)) (outletWater b) = b.

(** The components behind the first one, each fed the water its
    predecessor delivers and holding the outlet computed from it. *)
Fixpoint steady_from (dt : R) (w : Water) (cs : list Component)
    : list Component :=
  match cs with
  | [] => []
  | c :: rest =>
      simulate (set_inletWater c w) dt :: steady_from dt (transfer dt c w) rest
  end.

(** The state a plant settles in for a given influent: the first
    component as it is, the others fed in cascade from its outlet. *)
Definition steady_state (dt : R) (cs : list Component) : list Component :=
  match cs with
  | [] => []
  | c0 :: rest => c0 :: steady_from dt (outletWater c0) rest
  end.

(** The water a cascade of units makes of [w]. *)
Definition cascade (dt : R) (units : list Component) (w : Water) : Water :=
  fold_left (fun w c => transfer dt c w) units w.

(** One step seen from the second component on: [prev] is the outlet the
    predecessor delivers in this step. *)
Fixpoint step_tail (dt : R) (prev : Water) (cs : list Component)
    : list Component :=
  match cs with
  | [] => []
  | c :: rest =>
      set_inletWater (simulate c dt) prev
        :: step_tail dt (outletWater (simulate c dt)) rest
  end.

(** After [n] steps on the units [l0] fed [w]: the first [n] inlets and
    the first [n - 1] outlets of [l] have their steady values. *)
Fixpoint settled (dt : R) (n : nat) (w : Water) (l0 l : list Component)
    : Prop :=
  match l0, l with
  | [], [] => True
  | c0 :: r0, c :: r =>
      same_unit c0 c
      /\ (1 ≤ n -> inletWater c = w)
      /\ (2 ≤ n -> outletWater c = transfer dt c0 w)
      /\ settled dt (n - 1) (transfer dt c0 w) r0 r
  | _, _ => False
  end.

(** The plant invariant: the inlet component first, the outlet component
    last, treatment units in between. *)
Definition well_formed (cs : list Component) : Prop :=
  exists inlet middle outlet,
    cs = inlet :: middle ++ [outlet]
    /\ kind inlet = Inlet /\ kind outlet = Outlet
    /\ Forall (fun c => kind c <> Inlet /\ kind c <> Outlet) middle.

(** ** Proof automation *)

Ltac unfold_simulate :=
  unfold simulate, Component_simulate, PrimaryClarifier_simulate,
    ElectrocoagulationUnit_simulate, Filtration_simulate,
    AnaerobicAerobicFilter_simulate, OzoneDisinfection_simulate,
    MBR_simulate, Biofilter_simulate, PrimarySedimentationTank_simulate,
    AerationTank_simulate, SecondaryClarifier_simulate,
    ChlorineDisinfectionUnit_simulate, NitrificationTank_simulate,
    UVDisinfection_simulate, AnaerobicFilter_simulate,
    CoagulationFlocculation_simulate, MembraneFiltration_simulate,
    ChemicalOxidation_simulate, ActiveSludgeProcess_simulate,
    SludgeDigester_simulate, OilSeparator_simulate,
    PhosphorusRemovalUnit_simulate, DryingBed_simulate, Pump_simulate,
    FlowMeter_simulate, WaterSoftener_simulate,
    ActivatedCarbonFilter_simulate, HeatExchanger_simulate,
    MetalsRemovalUnit_simulate, MembraneFiltrationUnit_simulate,
    ReverseOsmosisUnit_simulate, set_outletWater in *.

Ltac not_a_target H :=
  exfalso; apply H; apply list_elem_of_In; simpl; tauto.

Section TransferFunctionFacts.
Local Open Scope R_scope.

(** [simulate] assigns [outletWater] and no other member. *)
Lemma simulate_fields this dt :
  kind (simulate this dt) = kind this
  /\ HRT (simulate this dt) = HRT this
  /\ temperature (simulate this dt) = temperature this
  /\ inletWater (simulate this dt) = inletWater this
  /\ removalEfficiencies (simulate this dt) = removalEfficiencies this.
Proof. destruct this as [k ? ? ? ? ? ? ? ?]; by destruct k. Qed.

Lemma simulate_kind this dt : kind (simulate this dt) = kind this.
Proof. apply simulate_fields. Qed.

Lemma simulate_inletWater this dt : inletWater (simulate this dt) = inletWater this.
Proof. apply simulate_fields. Qed.

(** The outlet is a function of the dynamic type, the inlet and [HRT]. *)
Lemma simulate_outlet_depends this this' dt dt' :
  kind this = kind this' -> HRT this = HRT this' ->
  inletWater this = inletWater this' ->
  outletWater (simulate this dt) = outletWater (simulate this' dt').
Proof.
  destruct this as [k ? ? h ? ? i ? ?], this' as [k' ? ? h' ? ? i' ? ?]; simpl.
  intros <- <- <-. by destruct k.
Qed.

Lemma clamp0_nonneg x : 0 <= clamp0 x.
Proof. unfold clamp0. destruct (Rlt_dec x 0); lra. Qed.

Lemma clamp_DO_spec out p :
  getParameter (clamp_DO out) p
  = if decide (p = DO) then clamp0 (getParameter out DO) else getParameter out p.
Proof.
  unfold clamp_DO, clamp0, getParameter, updateParameter.
  destruct (Rlt_dec (out DO) 0); repeat case_decide; subst; done.
Qed.

Lemma tempFactor_pos x : 0 < Rpower 1.035 x.
Proof. apply exp_pos. Qed.

(** A first-order removal fraction lies in [0, 1) when the retention
    time is not negative. *)
Lemma exp_decay_bounds k h tf :
  0 <= k -> 0 <= h -> 0 < tf -> 0 < exp (- k * h * tf) <= 1.
Proof.
  intros Hk Hh Htf. split; [apply exp_pos |].
  rewrite <- exp_0. assert (0 <= k * h * tf).
  { apply Rmult_le_pos; [apply Rmult_le_pos |]; lra. }
  destruct (Req_dec (k * h * tf) 0) as [E | N].
  - replace (- k * h * tf) with 0 by lra. lra.
  - left. apply exp_increasing. lra.
Qed.

End TransferFunctionFacts.

(** Replaces every decay factor [exp (- k * h * tf)] of the goal by a
    variable in (0, 1]. *)
Ltac bound_exp Hh :=
  repeat match goal with
  | |- context [exp (- ?k * ?h * ?tf)%R] =>
      let e := fresh "e" in
      let He := fresh "He" in
      assert (He : (0 < exp (- k * h * tf) <= 1)%R)
        by (apply exp_decay_bounds; [lra | exact Hh | apply tempFactor_pos]);
      set (e := exp (- k * h * tf)%R) in *; clearbody e
  end.

(** ** The transfer functions: frame, overrides, temperature, oxygen *)

Section TransferFunctionClaims.
Local Open Scope R_scope.

Lemma clamp_DO_apply out p :
  clamp_DO out p = if decide (p = DO) then clamp0 (out DO) else out p.
Proof. apply clamp_DO_spec. Qed.

(** C9.  A parameter the unit does not write leaves the unit with the
    value it entered with: the outlet is a copy of the inlet except on
    the parameters of [targets]. *)
Theorem simulate_frame this dt p :
  p ∉ targets (kind this) ->
  getParameter (outletWater (simulate this dt)) p
  = getParameter (inletWater this) p.
Proof.
  destruct this as [k ? ? h ? ? i o m]; simpl. intros Hp.
  destruct k; unfold_simulate; simpl in *;
    unfold getParameter, updateParameter;
    rewrite ?clamp_DO_apply; unfold updateParameter;
    destruct p; simpl; try reflexivity; not_a_target Hp.
Qed.

(** The chlorine unit leaves the sulfates alone. *)
Lemma simulate_frame_witness :
  (SULFATES ∉ targets (kind (Component_new ChlorineDisinfectionUnit)))
  /\ getParameter
       (outletWater (simulate (Component_new ChlorineDisinfectionUnit) 0.016))
       SULFATES
     = getParameter (inletWater (Component_new ChlorineDisinfectionUnit)) SULFATES.
Proof.
  split; [| apply simulate_frame];
    simpl; intros H%list_elem_of_In; simpl in H; intuition discriminate.
Defined.

(** C10.  The member [temperature] of a kinetic unit does not reach its
    transfer function: two settings give the same outlet, and the
    correction factor is [1.035 ^ (TEMP - 20)] with [TEMP] read from the
    inlet water, as the ammonium outlet shows. *)
Theorem temperature_setting_irrelevant this dt t1 t2 :
  kinetic_family (kind this) = true ->
  outletWater (simulate (set_temperature this t1) dt)
  = outletWater (simulate (set_temperature this t2) dt)
  /\ getParameter (outletWater (simulate (set_temperature this t1) dt)) NH4
     = getParameter (inletWater this) NH4
       - getParameter (inletWater this) NH4
         * (1 - exp (- k_nh4_of (kind this) * HRT this
                     * Rpower 1.035 (getParameter (inletWater this) TEMP - 20.0))).
Proof.
  destruct this as [k ? ? h ? ? i o m]; simpl.
  destruct k; simpl; try discriminate; intros _; split; try reflexivity.
  (* ActiveSludgeProcess writes COD after the clamp *)
  all: unfold_simulate; simpl; unfold getParameter, updateParameter;
    rewrite ?clamp_DO_apply; reflexivity.
Qed.

(** An aeration tank set to 5 and to 35 degrees. *)
Lemma temperature_setting_irrelevant_witness :
  kinetic_family (kind (Component_new AerationTank)) = true
  /\ outletWater (simulate (set_temperature (Component_new AerationTank) 5) 0.016)
     = outletWater (simulate (set_temperature (Component_new AerationTank) 35) 0.016).
Proof.
  split; [reflexivity |].
  exact (proj1 (temperature_setting_irrelevant
                  (Component_new AerationTank) 0.016 5 35 eq_refl)).
Defined.

(** No [simulate] reads [removalEfficiencies]. *)
Lemma simulate_ignores_removalEfficiencies this m dt :
  outletWater (simulate (set_removalEfficiencies this m) dt)
  = outletWater (simulate this dt).
Proof. by apply simulate_outlet_depends. Qed.

(** C1, as the program has it.  An override stored by
    [addRemovalEfficiency] changes no outlet: for every unit the outlet
    with the override equals the outlet without it, which is the built-in
    formula (for the primary clarifier, 70 % of the suspended solids and
    90 % of the oil are removed whatever the map holds). *)
Theorem removal_override_has_no_effect this param efficiency dt :
  removalEfficiencies (addRemovalEfficiency this param efficiency) !! param
  = Some efficiency
  /\ outletWater (simulate (addRemovalEfficiency this param efficiency) dt)
     = outletWater (simulate this dt)
  /\ outletWater (simulate (removeRemovalEfficiency this param) dt)
     = outletWater (simulate this dt)
  /\ getParameter
       (outletWater (simulate (addRemovalEfficiency
          (set_inletWater (Component_new PrimaryClarifier) (inletWater this))
          param efficiency) dt)) TSS
     = getParameter (inletWater this) TSS * (1 - 0.70).
Proof.
  repeat split.
  - unfold addRemovalEfficiency; simpl. apply lookup_insert_eq.
  - apply simulate_ignores_removalEfficiencies.
  - apply simulate_ignores_removalEfficiencies.
Qed.

(** C1, counterexample.  With the override 0.5 in place the clarifier
    still removes 70 %: the outlet holds 60, not the 100 that the
    override would give. *)
Lemma override_not_used :
  removalEfficiencies overridden_clarifier !! TSS = Some 0.5
  /\ getParameter (outletWater (simulate overridden_clarifier 0.016)) TSS = 60
  /\ getParameter (outletWater (simulate overridden_clarifier 0.016)) TSS
     <> getParameter (inletWater overridden_clarifier) TSS * (1 - 0.5).
Proof.
  split; [apply lookup_insert_eq |].
  unfold overridden_clarifier, getParameter; simpl.
  unfold updateParameter, getParameter; simpl. split; lra.
Qed.

(** The nitrification tank does not write the dissolved oxygen. *)
Lemma NitrificationTank_DO this dt :
  kind this = NitrificationTank ->
  getParameter (outletWater (simulate this dt)) DO
  = getParameter (inletWater this) DO.
Proof. destruct this as [k ? ? ? ? ? ? ? ?]; simpl. by intros ->. Qed.

Lemma Water_new_nonneg : nonneg Water_new.
Proof. intros p. unfold getParameter. destruct p; simpl; lra. Qed.

Lemma updateParameter_nonneg w p v :
  nonneg w -> 0 <= v -> nonneg (updateParameter w p v).
Proof.
  intros Hw Hv q. unfold getParameter, updateParameter.
  case_decide; [done | apply Hw].
Qed.

Lemma tempFactor_in_range_20 w :
  getParameter w TEMP = 20.0 -> tempFactor_in_range w.
Proof.
  unfold tempFactor_in_range. intros ->.
  replace (20.0 - 20.0) with 0 by lra. rewrite Rpower_O by lra.
  unfold FLT_MAX. lra.
Qed.

(** Every unit but one keeps non-negative water non-negative, for a
    retention time that is not negative; the nitrification tank does so
    when the inlet alkalinity is at least the 0.5 it subtracts. *)
Lemma simulate_nonneg this dt :
  0 <= HRT this ->
  nonneg (inletWater this) ->
  (kind this = NitrificationTank -> 0.5 <= getParameter (inletWater this) ALKALINITY) ->
  nonneg (outletWater (simulate this dt)).
Proof.
  destruct this as [k ? ? h ? ? i o m]; simpl. intros Hh Hin Halk p.
  assert (Hall := fun q => Hin q). unfold getParameter in *.
  pose proof (Hall BOD); pose proof (Hall COD); pose proof (Hall TSS);
  pose proof (Hall NH4); pose proof (Hall NO3); pose proof (Hall PH);
  pose proof (Hall P); pose proof (Hall OIL); pose proof (Hall DO);
  pose proof (Hall PATHOGENS); pose proof (Hall SALINITY);
  pose proof (Hall TURBIDITY); pose proof (Hall EC);
  pose proof (Hall ALKALINITY); pose proof (Hall HARDNESS);
  pose proof (Hall CHLORIDES); pose proof (Hall METALS).
  destruct k; unfold_simulate; simpl in *;
    unfold getParameter, updateParameter;
    rewrite ?clamp_DO_apply; unfold updateParameter;
    destruct p; simpl; try apply Hall; try apply clamp0_nonneg;
    try lra; try (specialize (Halk eq_refl); lra);
    bound_exp Hh; nra.
Qed.

(** C2, the failing case.  The nitrification tank subtracts 0.5 from the
    alkalinity without the clamp its sibling units apply to the oxygen:
    on non-negative water with alkalinity 0 the outlet alkalinity is
    -0.5. *)
Theorem NitrificationTank_negative_alkalinity :
  nonneg (inletWater low_alkalinity_tank)
  /\ getParameter (outletWater (simulate low_alkalinity_tank 0.016)) ALKALINITY
     = -0.5
  /\ getParameter (outletWater (simulate low_alkalinity_tank 0.016)) ALKALINITY
     < 0.
Proof.
  split.
  - simpl. apply updateParameter_nonneg; [apply Water_new_nonneg | lra].
  - unfold low_alkalinity_tank, low_alkalinity_inlet; simpl.
    unfold getParameter, updateParameter; simpl. split; lra.
Qed.

(** C5, as the program has it.  The aeration tank, the biofilter, the
    anaerobic-aerobic filter and the membrane bioreactor leave the
    dissolved oxygen at the inlet value less
    [(BOD_removed + COD_removed + 4.57*NH4_removed) * 1.5], clamped at
    zero (the aeration tank removes no COD).  The active-sludge unit
    applies the same rule to its kinetic BOD and ammonium removals only:
    the COD it removes next does not enter the demand. *)
Theorem kinetic_DO_rule this dt :
  (kind this ∈ [AerationTank; Biofilter; AnaerobicAerobicFilter; MBR] ->
   getParameter (outletWater (simulate this dt)) DO = stoichiometric_DO this dt)
  /\ (kind this = ActiveSludgeProcess ->
      getParameter (outletWater (simulate this dt)) DO
      = clamp0 (getParameter (inletWater this) DO
                - (removed this dt BOD + 4.57 * removed this dt NH4) * 1.5)).
Proof.
  unfold stoichiometric_DO, removed.
  destruct this as [k ? ? h ? ? i o m]; simpl.
  split; intros Hk.
  - apply list_elem_of_In in Hk; simpl in Hk.
    destruct k; try (exfalso; intuition discriminate);
      unfold_simulate; simpl; unfold getParameter, updateParameter;
      rewrite ?clamp_DO_apply; simpl; f_equal; lra.
  - subst k. unfold_simulate; simpl; unfold getParameter, updateParameter;
      rewrite ?clamp_DO_apply; simpl; f_equal; lra.
Qed.

(** The membrane bioreactor on the default influent. *)
Lemma kinetic_DO_rule_witness :
  (kind (Component_new MBR) ∈ [AerationTank; Biofilter; AnaerobicAerobicFilter; MBR])
  /\ getParameter (outletWater (simulate (Component_new MBR) 0.016)) DO
     = stoichiometric_DO (Component_new MBR) 0.016.
Proof.
  assert (H : kind (Component_new MBR)
              ∈ [AerationTank; Biofilter; AnaerobicAerobicFilter; MBR]).
  { apply list_elem_of_In; simpl; tauto. }
  split; [exact H | exact (proj1 (kinetic_DO_rule (Component_new MBR) 0.016) H)].
Defined.

(** C5, counterexample.  On the default influent the nitrification tank
    removes ammonium and leaves the oxygen at 2, above what the rule
    prescribes; the active-sludge unit removes 474 of COD that its oxygen
    demand does not count. *)
Lemma DO_rule_fails :
  getParameter (outletWater (simulate (Component_new NitrificationTank) 0.016)) DO
  = 2
  /\ stoichiometric_DO (Component_new NitrificationTank) 0.016 < 2
  /\ removed oxygen_rich_sludge 0.016 COD = 474
  /\ getParameter (outletWater (simulate oxygen_rich_sludge 0.016)) DO
     = stoichiometric_DO oxygen_rich_sludge 0.016 + 711.
Proof.
  assert (Hh : 0 <= 10) by lra.
  unfold stoichiometric_DO, removed, oxygen_rich_sludge.
  repeat split; simpl; unfold getParameter, updateParameter;
    rewrite ?clamp_DO_apply; simpl; try lra.
  - match goal with |- context [exp ?x] =>
      assert (Hlt : exp x < 1)
        by (rewrite <- exp_0; apply exp_increasing;
            pose proof (tempFactor_pos (20.0 - 20.0)); nra);
      set (e := exp x) in *; clearbody e
    end.
    unfold clamp0. destruct (Rlt_dec _ 0); lra.
  - bound_exp Hh. unfold clamp0.
    repeat match goal with |- context [Rlt_dec ?x 0] => destruct (Rlt_dec x 0) end;
      nra.
Qed.

End TransferFunctionClaims.

(** ** The two passes of a step *)

Section StepFacts.

Implicit Types (components cs : list Component) (i j : nat).

(** The first loop from index [a >= 1] on: the visited components are
    replaced by their simulation, in index order. *)
Lemma simulate_fold_spec dt n : forall a cs log,
  1 ≤ a -> a + n ≤ length cs ->
  let r := fold_left (simulate_body dt) (seq a n) (cs, log) in
  length r.1 = length cs
  /\ r.2 = log ++ seq a n
  /\ forall j, r.1 !! j
       = if decide (a ≤ j < a + n) then (fun c => simulate c dt) <$> cs !! j
         else cs !! j.
Proof.
  induction n as [| n IH]; intros a cs log Ha Hlen; simpl.
  - split; [done |]. split; [by rewrite app_nil_r |].
    intros j. case_decide; [lia | done].
  - destruct (lookup_lt_is_Some_2 cs a) as [c Hc]; [lia |].
    assert (Hbody : simulate_body dt (cs, log) a
                    = (<[a := simulate c dt]> cs, log ++ [a])).
    { unfold simulate_body; simpl. rewrite decide_False by lia. by rewrite Hc. }
    rewrite Hbody.
    destruct (IH (S a) (<[a := simulate c dt]> cs) (log ++ [a]))
      as (Hl & Hlog & Hlk); [lia | rewrite length_insert; lia |].
    split; [by rewrite Hl, length_insert |].
    split; [by rewrite Hlog, <- app_assoc |].
    intros j. rewrite Hlk.
    destruct (decide (j = a)) as [-> | Hne].
    + rewrite decide_False by lia. rewrite decide_True by lia.
      rewrite list_lookup_insert_eq by lia. by rewrite Hc.
    + rewrite list_lookup_insert_ne by done.
      repeat case_decide; done || lia.
Qed.

Lemma simulate_pass_logged_spec dt cs :
  length (simulate_pass dt cs) = length cs
  /\ (simulate_pass_logged dt cs).2 = seq 1 (length cs - 1)
  /\ forall j, simulate_pass dt cs !! j
       = if decide (j = 0) then cs !! j
         else (fun c => simulate c dt) <$> cs !! j.
Proof.
  unfold simulate_pass, simulate_pass_logged.
  destruct cs as [| c0 cs]; [by split; [| split; [| intros []]] |].
  cbn [length seq fold_left].
  change (simulate_body dt (c0 :: cs, []) 0) with (c0 :: cs, @nil nat).
  destruct (simulate_fold_spec dt (length cs) 1 (c0 :: cs) [])
    as (Hl & Hlog & Hlk); [lia | simpl; lia |].
  split; [done |]. split; [rewrite Hlog; simpl; by rewrite ?Nat.sub_0_r |].
  intros j. rewrite Hlk. simpl.
  repeat case_decide; try done; try lia.
  rewrite lookup_ge_None_2 by (simpl; lia). done.
Qed.

Lemma simulate_pass_lookup dt cs j :
  simulate_pass dt cs !! j
  = if decide (j = 0) then cs !! j else (fun c => simulate c dt) <$> cs !! j.
Proof. apply simulate_pass_logged_spec. Qed.

Lemma simulate_pass_length dt cs : length (simulate_pass dt cs) = length cs.
Proof. apply simulate_pass_logged_spec. Qed.

(** The second loop from index [a >= 1] on: each visited component gets
    the outlet of its predecessor; outlets are not written, so the outlet
    read is the one the pass started with. *)
Lemma propagate_fold_spec n : forall a cs,
  1 ≤ a -> a + n ≤ length cs ->
  forall j, fold_left propagate_body (seq a n) cs !! j
    = if decide (a ≤ j < a + n)
      then c ← cs !! j; prev ← cs !! (j - 1);
           Some (set_inletWater c (outletWater prev))
      else cs !! j.
Proof.
  induction n as [| n IH]; intros a cs Ha Hlen j; simpl.
  - case_decide; [lia | done].
  - destruct (lookup_lt_is_Some_2 cs a) as [c Hc]; [lia |].
    destruct (lookup_lt_is_Some_2 cs (a - 1)) as [prev Hp]; [lia |].
    assert (Hbody : propagate_body cs a
                    = <[a := set_inletWater c (outletWater prev)]> cs).
    { unfold propagate_body. by rewrite Hc, Hp. }
    rewrite Hbody, IH by (rewrite ?length_insert; lia).
    destruct (decide (j = a)) as [-> | Hne].
    + rewrite decide_False by lia. rewrite decide_True by lia.
      rewrite list_lookup_insert_eq by lia. by rewrite Hc, Hp.
    + rewrite (list_lookup_insert_ne cs a j) by congruence.
      case_decide.
      * rewrite decide_True by lia.
        destruct (decide (j - 1 = a)) as [E | N].
        -- rewrite E, list_lookup_insert_eq, Hc by lia.
           by destruct (cs !! j).
        -- by rewrite (list_lookup_insert_ne cs a (j - 1)) by congruence.
      * by rewrite decide_False by lia.
Qed.

Lemma propagate_pass_lookup cs j :
  propagate_pass cs !! j
  = if decide (j = 0) then cs !! j
    else c ← cs !! j; prev ← cs !! (j - 1);
         Some (set_inletWater c (outletWater prev)).
Proof.
  unfold propagate_pass. destruct cs as [| c0 cs].
  { simpl. by destruct j. }
  rewrite propagate_fold_spec by (simpl; lia). simpl length.
  repeat case_decide; try done; try lia.
  rewrite (lookup_ge_None_2 (c0 :: cs) j) by (simpl; lia). done.
Qed.

(** One step, component by component. *)
Lemma step_lookup_0 dt cs : step dt cs !! 0 = cs !! 0.
Proof.
  unfold step. rewrite propagate_pass_lookup, decide_True by done.
  by rewrite simulate_pass_lookup, decide_True.
Qed.

Lemma step_lookup_S dt cs i a b :
  cs !! i = Some a -> cs !! S i = Some b ->
  step dt cs !! S i
  = Some (set_inletWater (simulate b dt)
            (outletWater (if decide (i = 0) then a else simulate a dt))).
Proof.
  intros Ha Hb. unfold step.
  rewrite propagate_pass_lookup, decide_False by done.
  replace (S i - 1) with i by lia.
  rewrite (simulate_pass_lookup dt cs (S i)), (simulate_pass_lookup dt cs i).
  rewrite (decide_False (P := S i = 0)) by done.
  rewrite Ha, Hb. simpl. by case_decide.
Qed.

Lemma propagate_body_length cs i : length (propagate_body cs i) = length cs.
Proof.
  unfold propagate_body.
  destruct (cs !! i), (cs !! (i - 1)); by rewrite ?length_insert.
Qed.

Lemma propagate_pass_length cs : length (propagate_pass cs) = length cs.
Proof.
  unfold propagate_pass. generalize (seq 1 (length cs - 1)).
  intros idx. revert cs. induction idx as [| i idx IH]; intros cs; simpl; [done |].
  by rewrite IH, propagate_body_length.
Qed.

Lemma step_length dt cs : length (step dt cs) = length cs.
Proof. unfold step. by rewrite propagate_pass_length, simulate_pass_length. Qed.

End StepFacts.

(** ** The step: order of simulation and propagation *)

Section StepClaims.
Local Open Scope R_scope.

Implicit Types (cs : list Component) (i : nat).

Lemma set_inletWater_same b : set_inletWater b (inletWater b) = b.
Proof. by destruct b. Qed.

Lemma simulate_Outlet b dt :
  kind b = Outlet -> outletWater (simulate b dt) = inletWater b.
Proof. destruct b as [k ? ? ? ? ? ? ? ?]; simpl; by intros ->. Qed.

(** Every step ends linked. *)
Lemma step_linked dt cs : linked (step dt cs).
Proof.
  intros i a' b' Ha' Hb'.
  assert (Hlen : (S i < length cs)%nat).
  { rewrite <- (step_length dt). by apply lookup_lt_Some in Hb'. }
  destruct (lookup_lt_is_Some_2 cs i) as [a Ha]; [lia |].
  destruct (lookup_lt_is_Some_2 cs (S i)) as [b Hb]; [lia |].
  rewrite (step_lookup_S dt cs i a b Ha Hb) in Hb'.
  injection Hb' as <-. simpl.
  destruct i as [| i].
  - rewrite step_lookup_0, Ha in Ha'. by injection Ha' as <-.
  - destruct (lookup_lt_is_Some_2 cs i) as [z Hz]; [lia |].
    rewrite (step_lookup_S dt cs i z a Hz Ha) in Ha'.
    by injection Ha' as <-.
Qed.

(** So does a vector of freshly constructed components. *)
Lemma fresh_linked (ks : list UnitKind) : linked (Component_new <$> ks).
Proof.
  intros i a b Ha Hb. rewrite list_lookup_fmap in Ha, Hb.
  destruct (ks !! i), (ks !! S i); simplify_eq/=. done.
Qed.

(** From the second step on, with nothing edited in between, a unit's
    outlet is its transfer function applied to the outlet its predecessor
    had when the step began. *)
Lemma next_step_uses_predecessor_outlet dt cs i a b :
  step dt cs !! i = Some a -> step dt cs !! S i = Some b ->
  exists b', step dt (step dt cs) !! S i = Some b'
    /\ outletWater b'
       = outletWater (simulate (set_inletWater b (outletWater a)) dt).
Proof.
  intros Ha Hb. eexists. split; [by apply step_lookup_S |]. simpl.
  rewrite <- (step_linked dt cs i a b Ha Hb). by rewrite set_inletWater_same.
Qed.

(** C3, as the program has it.  A step is the simulation loop followed
    by the propagation loop.  After it, the outlet of a unit B that
    follows A is B's transfer function applied to B's own inlet as it was
    when the step began; when that inlet holds A's outlet (the vector is
    linked there) this is the transfer function applied to A's pre-step
    outlet.  The outlet A computes in the same step reaches only B's
    inlet, for the next step. *)
Theorem step_simulates_then_propagates dt cs i a b :
  cs !! i = Some a -> cs !! S i = Some b ->
  step dt cs = propagate_pass (simulate_pass dt cs)
  /\ exists b', step dt cs !! S i = Some b'
     /\ outletWater b' = outletWater (simulate b dt)
     /\ (inletWater b = outletWater a ->
         outletWater b'
         = outletWater (simulate (set_inletWater b (outletWater a)) dt))
     /\ inletWater b'
        = outletWater (if decide (i = 0%nat) then a else simulate a dt).
Proof.
  intros Ha Hb. split; [done |].
  eexists. split; [by apply step_lookup_S |]. simpl.
  split; [done |]. split; [| done].
  intros <-. by rewrite set_inletWater_same.
Qed.

(** C4, as the program has it.  The simulation loop calls [simulate] on
    the components of index 1, 2, ..., size-1 in that order: on every
    component but the first, the last one included.  The first component
    is left as it is; every other one ends the step with the outlet its
    own [simulate] computed and with the outlet of its predecessor as
    inlet.  For the [Outlet] component the inherited
    [Component::simulate] copies the inlet it had into its outlet. *)
Theorem step_simulates_all_but_first dt cs :
  (simulate_pass_logged dt cs).2 = seq 1 (length cs - 1)
  /\ step dt cs !! 0%nat = cs !! 0%nat
  /\ forall i a b, cs !! i = Some a -> cs !! S i = Some b ->
       exists b', step dt cs !! S i = Some b'
         /\ outletWater b' = outletWater (simulate b dt)
         /\ inletWater b'
            = outletWater (if decide (i = 0%nat) then a else simulate a dt)
         /\ (kind b = Outlet -> outletWater b' = inletWater b).
Proof.
  split; [apply simulate_pass_logged_spec |].
  split; [apply step_lookup_0 |].
  intros i a b Ha Hb.
  eexists. split; [by apply step_lookup_S |]. simpl.
  split; [done |]. split; [done |]. apply simulate_Outlet.
Qed.

(** The outlet component behind the sedimentation tank. *)
Lemma step_simulates_then_propagates_witness :
  edited_chain !! 1%nat = Some (Component_new PrimarySedimentationTank)
  /\ edited_chain !! 2%nat = Some (Component_new Outlet)
  /\ exists b', step 0.016 edited_chain !! 2%nat = Some b'
       /\ outletWater b' = outletWater (simulate (Component_new Outlet) 0.016)
       /\ inletWater b'
          = outletWater (simulate (Component_new PrimarySedimentationTank) 0.016).
Proof.
  split; [reflexivity |]. split; [reflexivity |].
  destruct (step_simulates_then_propagates 0.016 edited_chain 1
              (Component_new PrimarySedimentationTank) (Component_new Outlet)
              eq_refl eq_refl) as (_ & b' & Hb & Hout & _ & Hin).
  exists b'. split; [exact Hb |]. split; [exact Hout | exact Hin].
Defined.

(** C3, counterexample.  The influent BOD is 500 when the step begins,
    the tank's inlet still holds the default 300: the tank's outlet after
    the step is 195, its transfer function applied to its own inlet, not
    the 325 its transfer function gives on the pre-step outlet of its
    predecessor. *)
Lemma step_ignores_predecessor_outlet :
  (fun c => getParameter (outletWater c) BOD) <$> edited_chain !! 0%nat
  = Some 500
  /\ (fun c => getParameter (outletWater c) BOD) <$> step 0.016 edited_chain !! 1%nat
     = Some (300.0 * (1 - 0.35))
  /\ getParameter
       (outletWater
          (simulate (set_inletWater (Component_new PrimarySedimentationTank)
                       (outletWater edited_source)) 0.016)) BOD
     = 500 * (1 - 0.35)
  /\ 300.0 * (1 - 0.35) <> 500 * (1 - 0.35).
Proof.
  split; [reflexivity |].
  split; [by rewrite (step_lookup_S 0.016 edited_chain 0 edited_source
                        (Component_new PrimarySedimentationTank)) |].
  split; [reflexivity | lra].
Qed.

(** The outlet component right behind the inlet. *)
Lemma step_simulates_all_but_first_witness :
  bare_plant !! 0%nat = Some edited_source
  /\ bare_plant !! 1%nat = Some (Component_new Outlet)
  /\ exists b', step 0.016 bare_plant !! 1%nat = Some b'
       /\ outletWater b' = inletWater (Component_new Outlet)
       /\ inletWater b' = outletWater edited_source.
Proof.
  split; [reflexivity |]. split; [reflexivity |].
  destruct (proj2 (proj2 (step_simulates_all_but_first 0.016 bare_plant))
              0%nat edited_source (Component_new Outlet) eq_refl eq_refl)
    as (b' & Hb & _ & Hin & Hout).
  exists b'. split; [exact Hb |]. split; [exact (Hout eq_refl) | exact Hin].
Defined.

(** C4, counterexample.  With the vector [{inlet, outlet}] the simulation
    loop calls [simulate] on index 1, which is the Outlet component; its
    outlet BOD, 300 after the first step, is 500 after the second:
    [simulate] has written it. *)
Lemma Outlet_is_simulated :
  (simulate_pass_logged 0.016 bare_plant).2 = [1%nat]
  /\ kind <$> bare_plant !! 1%nat = Some Outlet
  /\ (fun c => getParameter (outletWater c) BOD) <$> step 0.016 bare_plant !! 1%nat
     = Some 300.0
  /\ (fun c => getParameter (outletWater c) BOD)
       <$> step 0.016 (step 0.016 bare_plant) !! 1%nat
     = Some 500.
Proof.
  assert (H1 : step 0.016 bare_plant !! 1%nat
               = Some (set_inletWater (simulate (Component_new Outlet) 0.016)
                         (outletWater edited_source)))
    by exact (step_lookup_S 0.016 bare_plant 0 edited_source
                (Component_new Outlet) eq_refl eq_refl).
  assert (H0 : step 0.016 bare_plant !! 0%nat = Some edited_source)
    by (by rewrite step_lookup_0).
  split; [apply simulate_pass_logged_spec |].
  split; [reflexivity |].
  split; [by rewrite H1 |].
  by rewrite (step_lookup_S 0.016 _ 0 _ _ H0 H1).
Qed.

End StepClaims.

(** ** The aeration-tank scenario *)

Section AerationScenario.
Local Open Scope R_scope.

(** Bounds on [exp] by repeated squaring from [1 + x <= exp x]. *)
Lemma exp_double_lower x a b :
  0 <= a -> a <= exp x -> b <= a * a -> b <= exp (2 * x).
Proof.
  intros Ha Hx Hb. replace (2 * x) with (x + x) by lra. rewrite exp_plus.
  apply Rle_trans with (a * a); [done |].
  apply Rmult_le_compat; done.
Qed.

Lemma exp_2_lower : 7.388154242921160 <= exp 2.
Proof.
  assert (H0 : 1.000122070312500 <= exp (/ 8192))
    by (pose proof (exp_ineq1_le (/ 8192)); lra).
  assert (H1 : 1.000244155526161 <= exp (2 * (/ 8192)))
    by (apply (exp_double_lower _ 1.000122070312500); [lra | exact H0 | lra]).
  assert (H2 : 1.000488370664242 <= exp (2 * (2 * (/ 8192))))
    by (apply (exp_double_lower _ 1.000244155526161); [lra | exact H1 | lra]).
  assert (H3 : 1.000976979834389 <= exp (2 * (2 * (2 * (/ 8192)))))
    by (apply (exp_double_lower _ 1.000488370664242); [lra | exact H2 | lra]).
  assert (H4 : 1.001954914158374 <= exp (2 * (2 * (2 * (2 * (/ 8192))))))
    by (apply (exp_double_lower _ 1.000976979834389); [lra | exact H3 | lra]).
  assert (H5 : 1.003913650006114 <= exp (2 * (2 * (2 * (2 * (2 * (/ 8192)))))))
    by (apply (exp_double_lower _ 1.001954914158374); [lra | exact H4 | lra]).
  assert (H6 : 1.007842616668598 <= exp (2 * (2 * (2 * (2 * (2 * (2 * (/ 8192))))))))
    by (apply (exp_double_lower _ 1.003913650006114); [lra | exact H5 | lra]).
  assert (H7 : 1.015746739973406 <= exp (2 * (2 * (2 * (2 * (2 * (2 * (2 * (/ 8192)))))))))
    by (apply (exp_double_lower _ 1.007842616668598); [lra | exact H6 | lra]).
  assert (H8 : 1.031741439766602 <= exp (2 * (2 * (2 * (2 * (2 * (2 * (2 * (2 * (/ 8192))))))))))
    by (apply (exp_double_lower _ 1.015746739973406); [lra | exact H7 | lra]).
  assert (H9 : 1.064490398531660 <= exp (2 * (2 * (2 * (2 * (2 * (2 * (2 * (2 * (2 * (/ 8192)))))))))))
    by (apply (exp_double_lower _ 1.031741439766602); [lra | exact H8 | lra]).
  assert (H10 : 1.133139808566092 <= exp (2 * (2 * (2 * (2 * (2 * (2 * (2 * (2 * (2 * (2 * (/ 8192))))))))))))
    by (apply (exp_double_lower _ 1.064490398531660); [lra | exact H9 | lra]).
  assert (H11 : 1.284005825757199 <= exp (2 * (2 * (2 * (2 * (2 * (2 * (2 * (2 * (2 * (2 * (2 * (/ 8192)))))))))))))
    by (apply (exp_double_lower _ 1.133139808566092); [lra | exact H10 | lra]).
  assert (H12 : 1.648670960578426 <= exp (2 * (2 * (2 * (2 * (2 * (2 * (2 * (2 * (2 * (2 * (2 * (2 * (/ 8192))))))))))))))
    by (apply (exp_double_lower _ 1.284005825757199); [lra | exact H11 | lra]).
  assert (H13 : 2.718115936254589 <= exp (2 * (2 * (2 * (2 * (2 * (2 * (2 * (2 * (2 * (2 * (2 * (2 * (2 * (/ 8192)))))))))))))))
    by (apply (exp_double_lower _ 1.648670960578426); [lra | exact H12 | lra]).
  assert (H14 : 7.388154242921160 <= exp (2 * (2 * (2 * (2 * (2 * (2 * (2 * (2 * (2 * (2 * (2 * (2 * (2 * (2 * (/ 8192))))))))))))))))
    by (apply (exp_double_lower _ 2.718115936254589); [lra | exact H13 | lra]).
  replace 2 with (2 * (2 * (2 * (2 * (2 * (2 * (2 * (2 * (2 * (2 * (2 * (2 * (2 * (2 * (/ 8192))))))))))))))) by lra. exact H14.
Qed.

Lemma exp_minus_2_lower : 0.135318762479653 <= exp (- 2).
Proof.
  assert (H0 : 0.999877929687500 <= exp (- / 8192))
    by (pose proof (exp_ineq1_le (- / 8192)); lra).
  assert (H1 : 0.999755874276161 <= exp (2 * (- / 8192)))
    by (apply (exp_double_lower _ 0.999877929687500); [lra | exact H0 | lra]).
  assert (H2 : 0.999511808149691 <= exp (2 * (2 * (- / 8192))))
    by (apply (exp_double_lower _ 0.999755874276161); [lra | exact H1 | lra]).
  assert (H3 : 0.999023854630664 <= exp (2 * (2 * (2 * (- / 8192)))))
    by (apply (exp_double_lower _ 0.999511808149691); [lra | exact H2 | lra]).
  assert (H4 : 0.998048662121110 <= exp (2 * (2 * (2 * (2 * (- / 8192))))))
    by (apply (exp_double_lower _ 0.999023854630664); [lra | exact H3 | lra]).
  assert (H5 : 0.996101131961737 <= exp (2 * (2 * (2 * (2 * (2 * (- / 8192)))))))
    by (apply (exp_double_lower _ 0.998048662121110); [lra | exact H4 | lra]).
  assert (H6 : 0.992217465095453 <= exp (2 * (2 * (2 * (2 * (2 * (2 * (- / 8192))))))))
    by (apply (exp_double_lower _ 0.996101131961737); [lra | exact H5 | lra]).
  assert (H7 : 0.984495498040446 <= exp (2 * (2 * (2 * (2 * (2 * (2 * (2 * (- / 8192)))))))))
    by (apply (exp_double_lower _ 0.992217465095453); [lra | exact H6 | lra]).
  assert (H8 : 0.969231385661905 <= exp (2 * (2 * (2 * (2 * (2 * (2 * (2 * (2 * (- / 8192))))))))))
    by (apply (exp_double_lower _ 0.984495498040446); [lra | exact H7 | lra]).
  assert (H9 : 0.939409478952096 <= exp (2 * (2 * (2 * (2 * (2 * (2 * (2 * (2 * (2 * (- / 8192)))))))))))
    by (apply (exp_double_lower _ 0.969231385661905); [lra | exact H8 | lra]).
  assert (H10 : 0.882490169145048 <= exp (2 * (2 * (2 * (2 * (2 * (2 * (2 * (2 * (2 * (2 * (- / 8192))))))))))))
    by (apply (exp_double_lower _ 0.939409478952096); [lra | exact H9 | lra]).
  assert (H11 : 0.778788898637655 <= exp (2 * (2 * (2 * (2 * (2 * (2 * (2 * (2 * (2 * (2 * (2 * (- / 8192)))))))))))))
    by (apply (exp_double_lower _ 0.882490169145048); [lra | exact H10 | lra]).
  assert (H12 : 0.606512148641251 <= exp (2 * (2 * (2 * (2 * (2 * (2 * (2 * (2 * (2 * (2 * (2 * (2 * (- / 8192))))))))))))))
    by (apply (exp_double_lower _ 0.778788898637655); [lra | exact H11 | lra]).
  assert (H13 : 0.367856986449426 <= exp (2 * (2 * (2 * (2 * (2 * (2 * (2 * (2 * (2 * (2 * (2 * (2 * (2 * (- / 8192)))))))))))))))
    by (apply (exp_double_lower _ 0.606512148641251); [lra | exact H12 | lra]).
  assert (H14 : 0.135318762479653 <= exp (2 * (2 * (2 * (2 * (2 * (2 * (2 * (2 * (2 * (2 * (2 * (2 * (2 * (2 * (- / 8192))))))))))))))))
    by (apply (exp_double_lower _ 0.367856986449426); [lra | exact H13 | lra]).
  replace (- 2) with (2 * (2 * (2 * (2 * (2 * (2 * (2 * (2 * (2 * (2 * (2 * (2 * (2 * (2 * (- / 8192))))))))))))))) by lra. exact H14.
Qed.

Lemma exp_minus_2_bounds : 0.13531 < exp (- 2) < 0.13536.
Proof.
  pose proof exp_2_lower as Hlo. pose proof exp_minus_2_lower as Hlo'.
  split; [lra |].
  assert (Hinv : exp (- 2) * exp 2 = 1).
  { rewrite <- exp_plus. replace (- 2 + 2) with 0 by lra. apply exp_0. }
  pose proof (exp_pos (- 2)). nra.
Qed.

(** C7.  One step on inlet, aeration tank, outlet, all freshly
    constructed: the tank has HRT 10, its inlet is the default water
    (BOD 300, TEMP 20, so the temperature factor is one), and its outlet
    BOD is [300 * exp (-0.2 * 10)], within 0.01 of 40.6. *)
Theorem AerationTank_default_outlet_BOD dt :
  exists tank, step dt aeration_plant !! 1%nat = Some tank
    /\ kind tank = AerationTank
    /\ HRT tank = 10
    /\ Rpower 1.035 (getParameter (inletWater (Component_new AerationTank)) TEMP
                     - 20.0) = 1
    /\ getParameter (outletWater tank) BOD = 300 * exp (- (0.2 * 10))
    /\ Rabs (getParameter (outletWater tank) BOD - 40.6) < 0.01.
Proof.
  assert (Htf : Rpower 1.035 (20.0 - 20.0) = 1).
  { replace (20.0 - 20.0) with 0 by lra. apply Rpower_O. lra. }
  eexists. split.
  { exact (step_lookup_S dt aeration_plant 0 (Component_new Inlet)
             (Component_new AerationTank) eq_refl eq_refl). }
  simpl. split; [done |]. split; [done |]. split; [exact Htf |].
  unfold getParameter. rewrite clamp_DO_apply.
  unfold updateParameter; simpl. rewrite Htf.
  replace (- (0.2) * 10 * 1) with (- 2) by lra.
  replace (- (0.2 * 10)) with (- 2) by lra.
  pose proof exp_minus_2_bounds.
  split; [lra |]. apply Rabs_def1; lra.
Qed.

End AerationScenario.

(** ** The parameter histories *)

Section HistoryClaims.

Implicit Types (h : ParameterHistory) (vals pre : list R) (cap : nat).
Implicit Types (hs : gmap WaterParameter ParameterHistory).

Lemma window_length cap l : length (window cap l) = min cap (length l).
Proof. unfold window. rewrite length_drop. lia. Qed.

(** One [addValue] on a full or filling window slides it by one. *)
Lemma addValue_window cap pre v :
  0 < cap ->
  addValue {| values := window cap pre; maxSize := cap |} v
  = Some {| values := window cap (pre ++ [v]); maxSize := cap |}.
Proof.
  intros Hcap. unfold addValue, window; simpl.
  rewrite length_drop, length_app; simpl.
  case_decide as Hfull.
  - destruct (drop (length pre - cap) pre) as [| x rest] eqn:E.
    + apply (f_equal length) in E. rewrite length_drop in E. simpl in E. lia.
    + do 2 f_equal.
      replace (length pre + 1 - cap) with ((length pre - cap) + 1) by lia.
      rewrite drop_app_le by lia.
      by rewrite <- drop_drop, E.
  - replace (length pre - cap) with 0 by lia.
    replace (length pre + 1 - cap) with 0 by lia. done.
Qed.

Lemma addValues_window cap vals : forall pre,
  0 < cap ->
  addValues {| values := window cap pre; maxSize := cap |} vals
  = Some {| values := window cap (pre ++ vals); maxSize := cap |}.
Proof.
  induction vals as [| v vals IH]; intros pre Hcap; simpl.
  - by rewrite app_nil_r.
  - rewrite addValue_window by done. simpl.
    rewrite IH by done. by rewrite <- app_assoc.
Qed.

Lemma history_at_insert hs p q h :
  history_at (<[q := h]> hs) p = if decide (p = q) then h else history_at hs p.
Proof.
  unfold history_at. case_decide as E.
  - subst. by rewrite lookup_insert_eq.
  - by rewrite lookup_insert_ne.
Qed.

(** The inner loop of [updateHistories] on a duplicate-free list of keys. *)
Lemma record_parameters_spec comp ps : NoDup ps ->
  forall hs (pre : WaterParameter -> list R),
  (forall p, history_at hs p = {| values := window 100 (pre p); maxSize := 100 |}) ->
  exists hs', fold_left (record_parameter comp) ps (Some hs) = Some hs'
    /\ forall p, history_at hs' p
         = {| values := window 100
                (if decide (p ∈ ps)
                 then pre p ++ [getParameter (outletWater comp) p] else pre p);
              maxSize := 100 |}.
Proof.
  induction 1 as [| q ps Hq Hnd IH]; intros hs pre Hpre.
  - exists hs. split; [done |]. intros p. rewrite decide_False by apply not_elem_of_nil.
    apply Hpre.
  - cbn [fold_left]. unfold record_parameter at 2. cbn [mbind option_bind].
    rewrite Hpre, addValue_window by lia. cbn [mbind option_bind].
    set (h' := {| values := window 100 (pre q ++ [getParameter (outletWater comp) q]);
                  maxSize := 100 |}).
    destruct (IH (<[q := h']> hs)
                (fun p => if decide (p = q)
                          then pre q ++ [getParameter (outletWater comp) q]
                          else pre p))
      as (hs' & Hfold & Hhs').
    { intros p. rewrite history_at_insert. case_decide; [done | apply Hpre]. }
    exists hs'. split; [done |]. intros p. rewrite Hhs'.
    destruct (decide (p = q)) as [-> | Hne].
    + rewrite decide_False by done.
      by rewrite decide_True by (apply elem_of_cons; by left).
    + destruct (decide (p ∈ ps)).
      * by rewrite decide_True by (apply elem_of_cons; by right).
      * by rewrite decide_False by (rewrite elem_of_cons; tauto).
Qed.

Lemma updateHistories_spec cs : forall hs (pre : WaterParameter -> list R),
  (forall p, history_at hs p = {| values := window 100 (pre p); maxSize := 100 |}) ->
  exists hs', updateHistories cs hs = Some hs'
    /\ forall p, history_at hs' p
         = {| values := window 100 (pre p ++ recorded_values p cs);
              maxSize := 100 |}.
Proof.
  unfold updateHistories.
  induction cs as [| c cs IH]; intros hs pre Hpre.
  - exists hs. split; [done |]. intros p. simpl. rewrite app_nil_r. apply Hpre.
  - cbn [fold_left]. unfold record_component at 2.
    destruct (record_parameters_spec c all_parameters all_parameters_NoDup hs pre Hpre)
      as (hs1 & -> & Hhs1).
    destruct (IH hs1 (fun p => pre p ++ [getParameter (outletWater c) p]))
      as (hs' & Hfold & Hhs').
    { intros p. rewrite Hhs1.
      by rewrite decide_True by apply all_parameters_complete. }
    exists hs'. split; [done |]. intros p. rewrite Hhs'.
    by rewrite <- app_assoc.
Qed.

Lemma updateHistories_run_spec css : forall hs (pre : WaterParameter -> list R),
  (forall p, history_at hs p = {| values := window 100 (pre p); maxSize := 100 |}) ->
  exists hs', updateHistories_run css hs = Some hs'
    /\ forall p, history_at hs' p
         = {| values := window 100 (pre p ++ recorded_run p css);
              maxSize := 100 |}.
Proof.
  induction css as [| cs css IH]; intros hs pre Hpre.
  - exists hs. split; [done |]. intros p. unfold recorded_run; simpl.
    rewrite app_nil_r. apply Hpre.
  - cbn [updateHistories_run].
    destruct (updateHistories_spec cs hs pre Hpre) as (hs1 & -> & Hhs1).
    cbn [mbind option_bind].
    destruct (IH hs1 (fun p => pre p ++ recorded_values p cs) Hhs1)
      as (hs' & Hrun & Hhs').
    exists hs'. split; [done |]. intros p. rewrite Hhs'.
    unfold recorded_run. cbn [fmap list_fmap concat]. by rewrite <- app_assoc.
Qed.

(** C8.  A history of capacity [cap >= 1], filled from empty by
    [addValue], never holds more than [cap] values and holds the last
    [cap] of the values appended, in arrival order, the most recent last:
    after [cap + k] values, the sequence without its first [k].  The
    program keeps one such history per parameter, of capacity 100, fed by
    [updateHistories] with the outlet values of every component. *)
Theorem history_is_bounded_fifo cap vals css param :
  0 < cap ->
  (exists h, addValues (ParameterHistory_new cap) vals = Some h
     /\ maxSize h = cap
     /\ length (values h) ≤ cap
     /\ values h = drop (length vals - cap) vals
     /\ forall k, length vals = cap + k ->
          values h = drop k vals /\ length (values h) = cap)
  /\ (exists hs, updateHistories_run css ∅ = Some hs
        /\ maxSize (history_at hs param) = 100
        /\ length (values (history_at hs param)) ≤ 100
        /\ values (history_at hs param)
           = drop (length (recorded_run param css) - 100) (recorded_run param css)).
Proof.
  intros Hcap. split.
  - exists {| values := window cap vals; maxSize := cap |}.
    split; [exact (addValues_window cap vals [] Hcap) |].
    split; [done |]. simpl.
    split; [rewrite window_length; lia |].
    split; [done |].
    intros k Hk. unfold window. rewrite length_drop.
    split; [f_equal |]; lia.
  - destruct (updateHistories_run_spec css ∅ (fun _ => [])) as (hs & Hrun & Hhs).
    { intros p. by unfold history_at; rewrite lookup_empty. }
    exists hs. split; [done |]. rewrite Hhs. simpl.
    split; [done |]. split; [rewrite window_length; lia | done].
Qed.

(** Capacity two, three values. *)
Lemma history_is_bounded_fifo_witness :
  0 < 2
  /\ exists h, addValues (ParameterHistory_new 2) [1%R; 2%R; 3%R] = Some h
       /\ length (values h) ≤ 2
       /\ values h = [2%R; 3%R].
Proof.
  assert (Hcap : 0 < 2) by lia.
  split; [exact Hcap |].
  destruct (proj1 (history_is_bounded_fifo 2 [1%R; 2%R; 3%R] [] BOD Hcap))
    as (h & Hh & _ & Hlen & Hv & _).
  exists h. split; [exact Hh |]. split; [exact Hlen | exact Hv].
Defined.

(** [addValue] runs: capacity two, three values in, the first is gone. *)
Example addValues_three :
  addValues (ParameterHistory_new 2) [1%R; 2%R; 3%R]
  = Some {| values := [2%R; 3%R]; maxSize := 2 |}.
Proof. reflexivity. Qed.

(** Capacity zero is the one case in which [addValue] pops an empty deque. *)
Example addValue_capacity_zero :
  addValue (ParameterHistory_new 0) 1%R = None.
Proof. reflexivity. Qed.

End HistoryClaims.

(** * Further properties of the program *)

(** ** The plant over many steps *)

Section LongRun.

Implicit Types (cs l rest : list Component) (i j n : nat) (w : Water).

Lemma simulate_as_set c dt :
  simulate c dt = set_outletWater c (outletWater (simulate c dt)).
Proof. destruct c as [k ? ? ? ? ? ? ? ?]; by destruct k. Qed.

Lemma simulate_transfer c dt :
  outletWater (simulate c dt) = transfer dt c (inletWater c).
Proof. unfold transfer. by rewrite set_inletWater_same. Qed.

Lemma transfer_same_unit dt a b w :
  same_unit a b -> transfer dt a w = transfer dt b w.
Proof.
  unfold same_unit, transfer. intros <-.
  apply simulate_outlet_depends; by destruct a.
Qed.

Lemma same_unit_refl c : same_unit c c.
Proof. by destruct c. Qed.

Lemma same_unit_step dt a b w :
  same_unit a b -> same_unit a (set_inletWater (simulate b dt) w).
Proof.
  unfold same_unit. intros <-. rewrite (simulate_as_set _ dt).
  by destruct a.
Qed.

(** A unit with the steady inlet and outlet is the steady unit. *)
Lemma same_unit_steady dt a b w :
  same_unit a b -> inletWater b = w -> outletWater b = transfer dt a w ->
  b = simulate (set_inletWater a w) dt.
Proof.
  unfold same_unit. intros Hab Hin Hout.
  rewrite (simulate_as_set _ dt). fold (transfer dt a w).
  by rewrite <- Hout, <- Hin.
Qed.

(** The step, structurally. *)
Lemma step_tail_from dt cs : forall j i a,
  cs !! i = Some a ->
  step dt cs !! (S i + j)
  = step_tail dt (outletWater (if decide (i = 0) then a else simulate a dt))
      (drop (S i) cs) !! j.
Proof.
  induction j as [| j IH]; intros i a Ha.
  - rewrite Nat.add_0_r.
    destruct (cs !! S i) as [b |] eqn:Hb.
    + rewrite (step_lookup_S dt cs i a b Ha Hb).
      by rewrite (drop_S cs b (S i) Hb).
    + rewrite (lookup_ge_None_2 (step dt cs)), drop_ge
        by (rewrite ?step_length; by apply lookup_ge_None).
      done.
  - destruct (cs !! S i) as [b |] eqn:Hb.
    + replace (S i + S j) with (S (S i) + j) by lia.
      rewrite (IH (S i) b Hb), (decide_False (P := S i = 0)) by done.
      by rewrite (drop_S cs b (S i) Hb).
    + rewrite (lookup_ge_None_2 (step dt cs)), drop_ge; [done | |].
      * by apply lookup_ge_None.
      * rewrite step_length. apply lookup_ge_None in Hb. lia.
Qed.

Lemma step_cons dt c0 rest :
  step dt (c0 :: rest) = c0 :: step_tail dt (outletWater c0) rest.
Proof.
  apply list_eq. intros [| j].
  - by rewrite step_lookup_0.
  - exact (step_tail_from dt (c0 :: rest) j 0 c0 eq_refl).
Qed.

Lemma iter_step_cons dt n c0 rest :
  Nat.iter n (step dt) (c0 :: rest)
  = c0 :: Nat.iter n (step_tail dt (outletWater c0)) rest.
Proof.
  induction n as [| n IH]; [done |]. simpl. by rewrite IH, step_cons.
Qed.

Lemma settled_0 dt l : forall w, settled dt 0 w l l.
Proof.
  induction l as [| c r IH]; intros w; simpl; [done |].
  split; [apply same_unit_refl |]. split; [lia |]. split; [lia | apply IH].
Qed.

Lemma settled_0_step dt : forall l0 l w w' x,
  settled dt 0 w l0 l -> settled dt 0 w' l0 (step_tail dt x l).
Proof.
  induction l0 as [| c0 r0 IH]; intros [| c r] w w' x; simpl; try done.
  intros (Hu & _ & _ & Hr).
  split; [by apply same_unit_step |]. split; [lia |]. split; [lia |].
  by eapply IH.
Qed.

(** One more step settles one more unit. *)
Lemma settled_step dt : forall l0 l n w,
  settled dt n w l0 l -> settled dt (S n) w l0 (step_tail dt w l).
Proof.
  induction l0 as [| c0 r0 IH]; intros [| c r] n w; simpl; try done.
  intros (Hu & Hin & Hout & Hr).
  split; [by apply same_unit_step |]. split; [done |].
  split.
  { intros Hn. rewrite simulate_transfer, Hin by lia.
    symmetry. by apply transfer_same_unit. }
  rewrite Nat.sub_0_r. destruct n as [| n].
  - by eapply settled_0_step.
  - rewrite simulate_transfer, Hin by lia.
    rewrite <- (transfer_same_unit dt c0 c w Hu).
    apply IH. by replace (S n - 1) with n in Hr by lia.
Qed.

Lemma settled_iter dt l w n :
  settled dt n w l (Nat.iter n (step_tail dt w) l).
Proof.
  induction n as [| n IH]; simpl; [apply settled_0 | by apply settled_step].
Qed.

Lemma settled_full dt : forall l0 l n w,
  length l0 + 1 ≤ n -> settled dt n w l0 l -> l = steady_from dt w l0.
Proof.
  induction l0 as [| c0 r0 IH]; intros [| c r] n w Hn; simpl; try done.
  simpl in Hn. intros (Hu & Hin & Hout & Hr).
  f_equal.
  - apply same_unit_steady; [done | apply Hin; lia | apply Hout; lia].
  - apply (IH r (n - 1)); [lia | done].
Qed.

Lemma settled_last_inlet dt sink0 : forall middle l n w,
  length middle + 1 ≤ n -> settled dt n w (middle ++ [sink0]) l ->
  exists init sink, l = init ++ [sink]
    /\ same_unit sink0 sink /\ inletWater sink = cascade dt middle w.
Proof.
  induction middle as [| m middle IH]; intros [| c r] n w Hn; simpl; try done.
  - intros (Hu & Hin & _ & Hr). destruct r; [| done].
    exists [], c. split; [done |]. split; [done | apply Hin; lia].
  - simpl in Hn. intros (Hu & _ & _ & Hr).
    destruct (IH r (n - 1) (transfer dt m w)) as (init & sink & -> & Hs & Hi);
      [lia | done |].
    by exists (c :: init), sink.
Qed.

Lemma simulate_idem c dt : simulate (simulate c dt) dt = simulate c dt.
Proof. destruct c as [k ? ? ? ? ? ? ? ?]; by destruct k. Qed.

Lemma step_tail_steady dt : forall rest w,
  step_tail dt w (steady_from dt w rest) = steady_from dt w rest.
Proof.
  induction rest as [| c rest IH]; intros w; simpl; [done |].
  rewrite simulate_idem. f_equal.
  - rewrite <- (simulate_inletWater (set_inletWater c w) dt) at 2.
    apply set_inletWater_same.
  - apply IH.
Qed.

Lemma iter_step_nil dt n : Nat.iter n (step dt) [] = [].
Proof. induction n as [| n IH]; [done |]. simpl. by rewrite IH. Qed.

(** X1.  A plant left to run with a fixed influent reaches its steady
    state within as many steps as it has components: from then on every
    unit holds the water its predecessor delivers and the outlet computed
    from it. *)
Theorem plant_settles dt cs n :
  length cs ≤ n -> Nat.iter n (step dt) cs = steady_state dt cs.
Proof.
  destruct cs as [| c0 rest]; [intros _; apply iter_step_nil |].
  simpl. intros Hn. rewrite iter_step_cons. f_equal.
  apply (settled_full dt rest _ n); [lia | apply settled_iter].
Qed.

(** Inlet and outlet alone, two steps. *)
Lemma plant_settles_witness :
  length bare_plant ≤ 2
  /\ Nat.iter 2 (step 0.016%R) bare_plant = steady_state 0.016%R bare_plant.
Proof.
  assert (H : length bare_plant ≤ 2) by (simpl; lia).
  split; [exact H | exact (plant_settles 0.016%R bare_plant 2 H)].
Defined.

(** X2.  The steady state is a fixed point of the step. *)
Theorem steady_state_is_fixed dt cs :
  step dt (steady_state dt cs) = steady_state dt cs.
Proof.
  destruct cs as [| c0 rest]; [done |]. simpl.
  by rewrite step_cons, step_tail_steady.
Qed.

(** X3.  With the inlet component first and the outlet component last,
    the effluent (the inlet water of the last component) is, after one
    step more than there are units in between, the influent passed
    through the transfer functions of those units in chain order; with
    no unit in between it is the influent itself after any step. *)
Theorem effluent_is_cascade dt inlet middle outlet n :
  length middle + 1 ≤ n ->
  exists init sink,
    Nat.iter n (step dt) (inlet :: middle ++ [outlet]) = init ++ [sink]
    /\ same_unit outlet sink
    /\ inletWater sink = cascade dt middle (outletWater inlet).
Proof.
  intros Hn. rewrite iter_step_cons.
  destruct (settled_last_inlet dt outlet middle
              (Nat.iter n (step_tail dt (outletWater inlet)) (middle ++ [outlet]))
              n (outletWater inlet) Hn (settled_iter _ _ _ _))
    as (init & sink & -> & Hs & Hi).
  by exists (inlet :: init), sink.
Qed.

(** Inlet and outlet alone, one step: the effluent is the influent. *)
Lemma effluent_is_cascade_witness :
  length (@nil Component) + 1 ≤ 1
  /\ exists init sink,
       step 0.016%R bare_plant = init ++ [sink]
       /\ inletWater sink = outletWater edited_source.
Proof.
  assert (H : length (@nil Component) + 1 ≤ 1) by (simpl; lia).
  split; [exact H |].
  destruct (effluent_is_cascade 0.016%R edited_source [] (Component_new Outlet) 1 H)
    as (init & sink & Heq & _ & Hi).
  exists init, sink. split; [exact Heq | exact Hi].
Defined.

(** X4.  A step changes waters only: after any number of steps every
    position holds the same unit (class, volume, flow rate, retention
    times, temperature, overrides), so the vector keeps its length, its
    order, its inlet component first and its outlet component last. *)
Theorem steps_keep_units dt cs n :
  Forall2 same_unit cs (Nat.iter n (step dt) cs)
  /\ (well_formed cs -> well_formed (Nat.iter n (step dt) cs)).
Proof.
  assert (Hs : forall l l' w, Forall2 same_unit l l' ->
                 Forall2 same_unit l (step_tail dt w l')).
  { intros l l' w H. revert w.
    induction H as [| a b l l' Hab _ IH]; intros w; simpl; constructor;
      [by apply same_unit_step | apply IH]. }
  assert (Hall : Forall2 same_unit cs (Nat.iter n (step dt) cs)).
  { induction n as [| n IH]; simpl.
    - apply Forall2_lookup. intros i. destruct (cs !! i); constructor.
      apply same_unit_refl.
    - destruct IH as [| a b l l' Hab Hl]; [by constructor |].
      rewrite step_cons. constructor; [done | by apply Hs]. }
  split; [done |].
  intros (i0 & mid & o0 & -> & Hi & Ho & Hmid).
  assert (Hk : forall a b, same_unit a b -> kind b = kind a)
    by (intros a b <-; by destruct a).
  apply Forall2_cons_inv_l in Hall as (i1 & rest & Hi1 & Hrest & ->).
  apply Forall2_app_inv_l in Hrest as (mid' & last' & Hmid' & Hlast & ->).
  apply Forall2_cons_inv_l in Hlast as (o1 & nil' & Ho1 & Hnil & ->).
  apply Forall2_nil_inv_l in Hnil as ->.
  exists i1, mid', o1. split; [done |].
  split; [by rewrite (Hk _ _ Hi1) |]. split; [by rewrite (Hk _ _ Ho1) |].
  clear -Hmid Hmid' Hk.
  induction Hmid' as [| a b l l' Hab _ IH]; [constructor |].
  apply Forall_cons in Hmid as [Ha Hl]. constructor; [| by apply IH].
  by rewrite (Hk _ _ Hab).
Qed.

Lemma steps_keep_units_witness :
  well_formed bare_plant
  /\ well_formed (Nat.iter 3 (step 0.016%R) bare_plant).
Proof.
  assert (H : well_formed bare_plant).
  { exists edited_source, [], (Component_new Outlet).
    split; [reflexivity |]. split; [reflexivity |]. split; [reflexivity |].
    constructor. }
  split; [exact H | exact (proj2 (steps_keep_units 0.016%R bare_plant 3) H)].
Defined.

End LongRun.

(** ** More on the transfer functions *)

Ltac inlet_facts Hin :=
  pose proof (Hin BOD); pose proof (Hin COD); pose proof (Hin TSS);
  pose proof (Hin NH4); pose proof (Hin NO3); pose proof (Hin PH);
  pose proof (Hin P); pose proof (Hin OIL); pose proof (Hin DO);
  pose proof (Hin TEMP); pose proof (Hin PATHOGENS); pose proof (Hin SALINITY);
  pose proof (Hin TURBIDITY); pose proof (Hin EC); pose proof (Hin ALKALINITY);
  pose proof (Hin RESIDUAL_CHLORINE); pose proof (Hin HARDNESS);
  pose proof (Hin SULFATES); pose proof (Hin CHLORIDES); pose proof (Hin METALS).

Ltac open_simulate :=
  unfold_simulate; simpl in *; unfold getParameter, updateParameter in *;
  rewrite ?clamp_DO_apply; unfold updateParameter.

Section TransferFunctionProperties.
Local Open Scope R_scope.

Lemma clamp0_mono x y : x <= y -> clamp0 x <= clamp0 y.
Proof. unfold clamp0. intros H. destruct (Rlt_dec x 0), (Rlt_dec y 0); lra. Qed.

Lemma clamp0_le x d : 0 <= d -> x <= d -> clamp0 x <= d.
Proof. unfold clamp0. intros Hd H. destruct (Rlt_dec x 0); lra. Qed.

Lemma exp_le x y : x <= y -> exp x <= exp y.
Proof.
  intros [H | ->]; [left; by apply exp_increasing | apply Rle_refl].
Qed.

(** X5.  On non-negative water, with a retention time that is not
    negative and, for a kinetic unit, a temperature factor within the
    binary32 range, no unit leaves more of a parameter than it found,
    except the parameters of [raises].  The two conditions are what keeps
    the program's arithmetic away from NaN; the inequality itself is
    proved in exact arithmetic. *)
Theorem simulate_never_adds this dt p :
  0 <= HRT this ->
  nonneg (inletWater this) ->
  (kinetic_family (kind this) = true -> tempFactor_in_range (inletWater this)) ->
  p ∉ raises (kind this) ->
  getParameter (outletWater (simulate this dt)) p
  <= getParameter (inletWater this) p.
Proof.
  destruct this as [k ? ? h ? ? i o m]; simpl. intros Hh Hin _ Hp.
  unfold nonneg, getParameter in Hin. inlet_facts Hin.
  destruct k; open_simulate; destruct p; simpl;
    try apply Rle_refl; try lra; try not_a_target Hp;
    try (apply clamp0_le; [lra |]); bound_exp Hh; nra.
Qed.

(** The aeration tank does not add BOD to the default influent. *)
Lemma simulate_never_adds_witness :
  getParameter (outletWater (simulate (Component_new AerationTank) 0.016)) BOD
  <= getParameter (inletWater (Component_new AerationTank)) BOD.
Proof.
  apply (simulate_never_adds (Component_new AerationTank) 0.016).
  - simpl. lra.
  - apply Water_new_nonneg.
  - intros _. by apply tempFactor_in_range_20.
  - simpl. intros H%list_elem_of_In. simpl in H. intuition discriminate.
Defined.



(** X7.  What a unit computes depends on its class, on its inlet water
    and, for the kinetic units only, on its retention time: the time
    step, the volume, the flow rate, the solids retention time, the
    temperature setting and the stored overrides never matter. *)
Theorem simulate_reads_only this this' dt dt' :
  kind this = kind this' ->
  inletWater this = inletWater this' ->
  (kinetic_family (kind this) = true -> HRT this = HRT this') ->
  outletWater (simulate this dt) = outletWater (simulate this' dt').
Proof.
  destruct this as [k ? ? h ? ? i ? ?], this' as [k' ? ? h' ? ? i' ? ?]; simpl.
  intros <- <- Hh.
  destruct k; simpl in Hh; try specialize (Hh eq_refl); subst; reflexivity.
Qed.

(** A pump of another size, at another time step. *)
Lemma simulate_reads_only_witness :
  outletWater (simulate (Component_new Pump) 0.016)
  = outletWater
      (simulate (mkComponent Pump 5 7 3 1 40 Water_new Water_new ∅) 0.08).
Proof.
  apply (simulate_reads_only (Component_new Pump)
           (mkComponent Pump 5 7 3 1 40 Water_new Water_new ∅) 0.016 0.08).
  - reflexivity.
  - reflexivity.
  - simpl. discriminate.
Defined.

Lemma exp_decay_mono_HRT k h1 h2 tf :
  0 <= k -> 0 < tf -> h1 <= h2 ->
  exp (- k * h2 * tf) <= exp (- k * h1 * tf).
Proof.
  intros Hk Htf Hh. apply exp_le.
  assert (0 <= k * tf * (h2 - h1))
    by (apply Rmult_le_pos; [apply Rmult_le_pos |]; lra).
  lra.
Qed.

Lemma exp_decay_mono_tf k h tf1 tf2 :
  0 <= k -> 0 <= h -> tf1 <= tf2 ->
  exp (- k * h * tf2) <= exp (- k * h * tf1).
Proof.
  intros Hk Hh Htf. apply exp_le.
  assert (0 <= k * h * (tf2 - tf1))
    by (apply Rmult_le_pos; [apply Rmult_le_pos |]; lra).
  lra.
Qed.

Ltac pair_exp_HRT h1 h2 Hle :=
  repeat match goal with
  | |- context [exp (- ?k * h2 * ?tf)] =>
      let e1 := fresh "e" in
      let e2 := fresh "e" in
      assert (exp (- k * h2 * tf) <= exp (- k * h1 * tf))
        by (apply exp_decay_mono_HRT; [lra | apply tempFactor_pos | exact Hle]);
      pose proof (exp_pos (- k * h2 * tf));
      set (e2 := exp (- k * h2 * tf)) in *;
      set (e1 := exp (- k * h1 * tf)) in *; clearbody e1 e2
  end.

(** X8.  Of two units of one class fed the same non-negative water,
    with retention times that are not negative and a temperature factor
    within the binary32 range (so that the program's arithmetic meets no
    NaN), the one with the longer retention time leaves no more of any
    parameter, nitrate excepted, of which it leaves no less. *)
Theorem longer_retention_removes_more this this' dt p :
  kind this = kind this' ->
  inletWater this = inletWater this' ->
  nonneg (inletWater this) ->
  tempFactor_in_range (inletWater this) ->
  0 <= HRT this ->
  HRT this <= HRT this' ->
  (p <> NO3 ->
   getParameter (outletWater (simulate this' dt)) p
   <= getParameter (outletWater (simulate this dt)) p)
  /\ getParameter (outletWater (simulate this dt)) NO3
     <= getParameter (outletWater (simulate this' dt)) NO3.
Proof.
  destruct this as [k ? ? h ? ? i ? ?], this' as [k' ? ? h' ? ? i' ? ?]; simpl.
  intros <- <- Hin _ _ Hh. unfold nonneg, getParameter in Hin. inlet_facts Hin.
  split; [intros Hp |].
  - destruct k; open_simulate; destruct p; simpl;
      try apply Rle_refl; try (by destruct Hp);
      try apply clamp0_mono; pair_exp_HRT h h' Hh; nra.
  - destruct k; open_simulate; simpl;
      try apply Rle_refl; pair_exp_HRT h h' Hh; nra.
Qed.

(** Two aeration tanks, ten and twenty hours. *)
Lemma longer_retention_removes_more_witness :
  getParameter
    (outletWater
       (simulate (mkComponent AerationTank 1000 100 20 20 20 Water_new Water_new ∅)
          0.016)) BOD
  <= getParameter (outletWater (simulate (Component_new AerationTank) 0.016)) BOD.
Proof.
  refine (proj1 (longer_retention_removes_more (Component_new AerationTank)
            (mkComponent AerationTank 1000 100 20 20 20 Water_new Water_new ∅)
            0.016 BOD eq_refl eq_refl Water_new_nonneg _ _ _) _).
  - by apply tempFactor_in_range_20.
  - simpl. lra.
  - simpl. lra.
  - discriminate.
Defined.



Ltac pair_exp_TEMP h t1 t2 Hh Hle :=
  repeat match goal with
  | |- context [exp (- ?k * h * Rpower 1.035 (t2 - 20.0))] =>
      let e1 := fresh "e" in
      let e2 := fresh "e" in
      assert (exp (- k * h * Rpower 1.035 (t2 - 20.0))
              <= exp (- k * h * Rpower 1.035 (t1 - 20.0)))
        by (apply exp_decay_mono_tf;
            [lra | exact Hh | apply Rle_Rpower; lra]);
      pose proof (exp_pos (- k * h * Rpower 1.035 (t2 - 20.0)));
      set (e2 := exp (- k * h * Rpower 1.035 (t2 - 20.0))) in *;
      set (e1 := exp (- k * h * Rpower 1.035 (t1 - 20.0))) in *;
      clearbody e1 e2
  end.

(** 1.035 ^ 10 is far within the binary32 range. *)
Lemma tempFactor_in_range_30 w :
  getParameter w TEMP = 30 -> tempFactor_in_range w.
Proof.
  unfold tempFactor_in_range. intros ->.
  apply Rle_trans with (Rpower 2 10).
  - replace (30 - 20.0) with 10 by lra.
    apply Rle_Rpower_l; lra.
  - replace 10 with (INR 10) by (simpl; lra).
    rewrite Rpower_pow by lra. unfold FLT_MAX. simpl. lra.
Qed.

(** X10.  Warmer water is treated faster: of two non-negative inlet
    waters that differ in temperature only, both with a temperature
    factor within the binary32 range, a kinetic unit (retention time not
    negative) leaves no more BOD, COD, ammonium or dissolved oxygen from
    the warmer one.  The range conditions keep the program's arithmetic
    away from NaN. *)
Theorem warmer_water_removes_more this w w' dt p :
  0 <= HRT this ->
  nonneg w ->
  (forall q, q <> TEMP -> getParameter w' q = getParameter w q) ->
  getParameter w TEMP <= getParameter w' TEMP ->
  tempFactor_in_range w ->
  tempFactor_in_range w' ->
  p ∈ [BOD; COD; NH4; DO] ->
  getParameter (transfer dt this w') p <= getParameter (transfer dt this w) p.
Proof.
  unfold transfer.
  destruct this as [k ? ? h ? ? i o m]; simpl. intros Hh Hin Heq Ht _ _ Hp.
  apply list_elem_of_In in Hp; simpl in Hp.
  unfold nonneg, getParameter in *. inlet_facts Hin.
  pose proof (Heq BOD ltac:(discriminate)).
  pose proof (Heq COD ltac:(discriminate)).
  pose proof (Heq NH4 ltac:(discriminate)).
  pose proof (Heq DO ltac:(discriminate)).
  destruct k; open_simulate;
    destruct p; try (exfalso; intuition discriminate); simpl;
    try lra; try apply clamp0_mono;
    pair_exp_TEMP h (w TEMP) (w' TEMP) Hh Ht; nra.
Qed.

(** The default influent at 20 and at 30 degrees through a biofilter. *)
Lemma warmer_water_removes_more_witness :
  getParameter
    (transfer 0.016 (Component_new Biofilter) (updateParameter Water_new TEMP 30))
    NH4
  <= getParameter (transfer 0.016 (Component_new Biofilter) Water_new) NH4.
Proof.
  apply (warmer_water_removes_more (Component_new Biofilter) Water_new
           (updateParameter Water_new TEMP 30) 0.016 NH4).
  - simpl. lra.
  - apply Water_new_nonneg.
  - intros q Hq. unfold getParameter, updateParameter.
    by rewrite decide_False.
  - unfold getParameter, updateParameter. simpl. lra.
  - by apply tempFactor_in_range_20.
  - by apply tempFactor_in_range_30.
  - apply list_elem_of_In. simpl. tauto.
Defined.

End TransferFunctionProperties.

(** ** Editing the plant *)

Section Topology.

Implicit Types (cs middle : list Component) (i : nat) (k : UnitKind).

Lemma add_component_snoc k l outlet :
  add_component k (l ++ [outlet]) = l ++ [Component_new k; outlet].
Proof.
  unfold add_component. rewrite length_app. simpl.
  replace (length l + 1 - 1) with (length l) by lia.
  by rewrite take_app_length, drop_app_length.
Qed.

Lemma snoc_decompose cs : cs <> [] -> exists l outlet, cs = l ++ [outlet].
Proof.
  induction cs as [| c cs IH] using rev_ind; [done |]. intros _. by exists cs, c.
Qed.

Lemma create_component_unit type k :
  create_component type = Some k -> k <> Inlet /\ k <> Outlet.
Proof.
  unfold create_component. repeat case_decide; intros [= <-]; done.
Qed.

Lemma remove_component_middle inlet middle outlet i x :
  middle !! i = Some x ->
  remove_component (S i) (inlet :: middle ++ [outlet])
  = inlet :: delete i middle ++ [outlet].
Proof.
  intros Hx. pose proof (lookup_lt_Some _ _ _ Hx) as Hi.
  unfold remove_component. simpl. rewrite length_app. simpl.
  rewrite decide_True by lia. f_equal.
  rewrite !delete_take_drop, take_app_le, drop_app_le by lia.
  by rewrite <- app_assoc.
Qed.

Lemma remove_component_outside inlet middle outlet i :
  length middle ≤ i ->
  remove_component (S i) (inlet :: middle ++ [outlet])
  = inlet :: middle ++ [outlet].
Proof.
  intros Hi. unfold remove_component. simpl. rewrite length_app. simpl.
  by rewrite decide_False by lia.
Qed.

Lemma reset_plant inlet middle outlet :
  reset (inlet :: middle ++ [outlet]) = [inlet; outlet].
Proof.
  unfold reset. simpl. by rewrite last_cons, last_snoc.
Qed.

(** X11.  The buttons keep the plant well formed: after "Add" (whatever
    the type name), "Remove" (whatever the index) or "Reset", the inlet
    component is still first, the outlet component still last, and only
    treatment units lie in between.  "Remove" on the first or the last
    index, or past the end, changes nothing. *)
Theorem edits_keep_well_formed cs type i :
  well_formed cs ->
  well_formed (add_button type cs)
  /\ well_formed (remove_component i cs)
  /\ well_formed (reset cs)
  /\ remove_component 0 cs = cs
  /\ remove_component (length cs - 1) cs = cs
  /\ (length cs ≤ i -> remove_component i cs = cs).
Proof.
  intros (inlet & middle & outlet & -> & Hi & Ho & Hm).
  split; [| split; [| split; [| split; [| split]]]].
  - unfold add_button. destruct (create_component type) as [k |] eqn:Hk.
    + exists inlet, (middle ++ [Component_new k]), outlet.
      split.
      { rewrite app_comm_cons, add_component_snoc.
        by rewrite <- app_assoc. }
      split; [done |]. split; [done |].
      apply Forall_app. split; [done |]. constructor; [| constructor].
      simpl. by apply create_component_unit with type.
    + by exists inlet, middle, outlet.
  - destruct i as [| i]; [by exists inlet, middle, outlet |].
    destruct (middle !! i) as [x |] eqn:Hx.
    + rewrite (remove_component_middle _ _ _ _ x Hx).
      exists inlet, (delete i middle), outlet.
      split; [done |]. split; [done |]. split; [done |].
      by apply Forall_delete.
    + rewrite remove_component_outside by by apply lookup_ge_None.
      by exists inlet, middle, outlet.
  - rewrite reset_plant. exists inlet, [], outlet.
    split; [done |]. split; [done |]. split; [done | constructor].
  - done.
  - unfold remove_component. by rewrite decide_False by lia.
  - intros Hle. unfold remove_component. by rewrite decide_False by lia.
Qed.

Lemma initial_components_well_formed : well_formed initial_components.
Proof.
  exists (Component_new Inlet), [], (Component_new Outlet).
  split; [done |]. split; [done |]. split; [done | constructor].
Qed.

Lemma edits_keep_well_formed_witness :
  well_formed initial_components
  /\ well_formed (add_button "Pump" initial_components)
  /\ well_formed (remove_component 1 initial_components).
Proof.
  split; [exact initial_components_well_formed |].
  destruct (edits_keep_well_formed initial_components "Pump" 1
              initial_components_well_formed) as (Ha & Hr & _).
  split; [exact Ha | exact Hr].
Defined.

(** X12.  "Add" followed by "Remove" on the unit just added gives back
    the vector as it was. *)
Theorem add_then_remove cs k :
  2 ≤ length cs ->
  remove_component (length cs - 1) (add_component k cs) = cs.
Proof.
  intros Hlen.
  destruct (snoc_decompose cs) as (l & outlet & ->);
    [intros ->; simpl in Hlen; lia |].
  rewrite length_app in *. simpl in *.
  rewrite add_component_snoc. unfold remove_component.
  rewrite length_app. simpl. rewrite decide_True by lia.
  replace (length l + 1 - 1) with (length l) by lia.
  apply (delete_middle l [outlet]).
Qed.

Lemma add_then_remove_witness :
  2 ≤ length initial_components
  /\ remove_component 1 (add_component UVDisinfection initial_components)
     = initial_components.
Proof.
  assert (H : 2 ≤ length initial_components) by (simpl; lia).
  split; [exact H | exact (add_then_remove initial_components UVDisinfection H)].
Defined.

(** X13.  "Load Default Example" replaces whatever lies between inlet and
    outlet by eight freshly constructed units, in this order; every type
    name of its list is matched, so no null pointer enters the vector;
    the inlet and outlet components are kept as they are. *)
Theorem load_default_example_result inlet middle outlet :
  load_default_example (inlet :: middle ++ [outlet])
  = Some (inlet
          :: (Component_new
                <$> [PrimaryClarifier; PrimarySedimentationTank; AerationTank;
                     ActiveSludgeProcess; NitrificationTank; SecondaryClarifier;
                     ChlorineDisinfectionUnit; Filtration])
          ++ [outlet]).
Proof. unfold load_default_example. by rewrite reset_plant. Qed.

(** X14.  Three entries of the "Type" combo box construct nothing:
    "Add" with "Nitrification Tank", "Biofilter" or "Ozone Disinfection"
    leaves the vector as it is, because the chain of comparisons spells
    these types "Nitrification Unit", "Biofilter Unit" and "Ozonation
    Unit".  Every other entry adds a unit, never of the classes
    [NitrificationTank], [Biofilter] or [OzoneDisinfection]. *)
Theorem add_button_dead_entries type cs :
  type ∈ componentTypes ->
  (type ∈ ["Nitrification Tank"; "Biofilter"; "Ozone Disinfection"] ->
   add_button type cs = cs)
  /\ (type ∉ ["Nitrification Tank"; "Biofilter"; "Ozone Disinfection"] ->
      exists k, create_component type = Some k
        /\ (k ∉ [NitrificationTank; Biofilter; OzoneDisinfection])
        /\ add_button type cs = add_component k cs).
Proof.
  intros Hin. apply list_elem_of_In in Hin. unfold add_button.
  simpl in Hin.
  repeat (destruct Hin as [<- | Hin]); [.. | done];
    (split;
     [ intros H; first [ reflexivity
                       | exfalso; apply list_elem_of_In in H; simpl in H;
                         intuition discriminate ]
     | intros H; first [ exfalso; apply H; apply list_elem_of_In; simpl; tauto
                       | eexists; split; [reflexivity |];
                         split; [| reflexivity];
                         intros H'%list_elem_of_In; simpl in H';
                         intuition discriminate ] ]).
Qed.

Lemma add_button_dead_entries_witness :
  ("Biofilter" ∈ componentTypes)
  /\ add_button "Biofilter" initial_components = initial_components.
Proof.
  assert (H : "Biofilter" ∈ componentTypes)
    by (apply list_elem_of_In; simpl; tauto).
  split; [exact H |].
  apply (proj1 (add_button_dead_entries "Biofilter" initial_components H)).
  apply list_elem_of_In. simpl. tauto.
Defined.

End Topology.

(** ** Recording over many ticks *)

Section Recording.

Implicit Types (cs : list Component) (n m : nat).
Implicit Types (hs : gmap WaterParameter ParameterHistory).

Lemma recorded_values_length p cs : length (recorded_values p cs) = length cs.
Proof. unfold recorded_values. apply length_map. Qed.

Lemma ticks_spec dt n : forall cs hs (pre : WaterParameter -> list R) m,
  (forall p, history_at hs p = {| values := window 100 (pre p); maxSize := 100 |}) ->
  (forall p, length (pre p) = m) ->
  exists s, ticks n dt {| components := cs; parameterHistories := hs |} = Some s
    /\ components s = Nat.iter n (step dt) cs
    /\ forall p,
         maxSize (history_at (parameterHistories s) p) = 100
         /\ length (values (history_at (parameterHistories s) p))
            = min 100 (m + n * length cs)
         /\ (1 ≤ n -> length cs ≤ 100 ->
             exists older, values (history_at (parameterHistories s) p)
                           = older ++ recorded_values p (components s)).
Proof.
  induction n as [| n IH]; intros cs hs pre m Hpre Hm.
  - eexists. split; [done |]. split; [done |]. intros p.
    cbn [components parameterHistories]. rewrite Hpre.
    cbn [values maxSize]. rewrite window_length, Hm.
    split; [done |]. split; [lia | intros; lia].
  - cbn [ticks]. unfold tick at 1. cbn [components parameterHistories].
    destruct (updateHistories_spec (step dt cs) hs pre Hpre) as (hs1 & -> & Hhs1).
    cbn [mbind option_bind].
    destruct n as [| n].
    + eexists. split; [done |]. split; [done |]. intros p.
      cbn [components parameterHistories ticks]. rewrite Hhs1.
      cbn [values maxSize].
      rewrite window_length, length_app, recorded_values_length, step_length, Hm.
      split; [done |]. split; [lia |]. intros _ Hlen.
      exists (drop (length (pre p ++ recorded_values p (step dt cs)) - 100) (pre p)).
      unfold window. rewrite drop_app_le; [done |].
      rewrite length_app, recorded_values_length, step_length. lia.
    + destruct (IH (step dt cs) hs1
                  (fun p => pre p ++ recorded_values p (step dt cs))
                  (m + length cs) Hhs1) as (s & Hs & Hc & Hh).
      { intros p.
        by rewrite length_app, recorded_values_length, step_length, Hm. }
      exists s. split; [done |].
      split; [by rewrite Hc, <- Nat.iter_succ_r |].
      intros p. destruct (Hh p) as (Hmax & Hlen & Hsuf).
      rewrite step_length in Hlen, Hsuf.
      split; [done |]. split; [rewrite Hlen; f_equal; lia |].
      intros _ Hle. apply Hsuf; [lia | done].
Qed.

(** X15.  Started with no history, the simulating branch of the main
    loop never pops an empty deque, whatever the vector of components:
    after [n] ticks every parameter's series has capacity 100 and holds
    [min 100 (n * size)] values, the same number for all parameters, and
    (for at most 100 components) ends with the outlet values of all
    components after the last tick, in vector order. *)
Theorem ticks_record dt n cs p :
  exists s, ticks n dt {| components := cs; parameterHistories := ∅ |} = Some s
    /\ components s = Nat.iter n (step dt) cs
    /\ maxSize (history_at (parameterHistories s) p) = 100
    /\ length (values (history_at (parameterHistories s) p))
       = min 100 (n * length cs)
    /\ (1 ≤ n -> length cs ≤ 100 ->
        exists older, values (history_at (parameterHistories s) p)
                      = older ++ recorded_values p (components s)).
Proof.
  destruct (ticks_spec dt n cs ∅ (fun _ => []) 0) as (s & Hs & Hc & Hh).
  { intros q. by unfold history_at; rewrite lookup_empty. }
  { done. }
  exists s. split; [done |]. split; [done |]. apply Hh.
Qed.

(** Three ticks on inlet and outlet: six values per parameter. *)
Lemma ticks_record_witness :
  exists s, ticks 3 0.016%R {| components := bare_plant; parameterHistories := ∅ |}
            = Some s
    /\ length (values (history_at (parameterHistories s) BOD)) = 6.
Proof.
  destruct (ticks_record 0.016%R 3 bare_plant BOD) as (s & Hs & _ & _ & Hlen & _).
  exists s. split; [exact Hs | exact Hlen].
Defined.

End Recording.

(** ** Labels, overrides, pipe colours *)

Section Miscellany.

(** X16.  The labels of the parameters are pairwise different and none
    is empty: the [default] branch of [parameterToString] is never taken
    and widget labels built from them do not collide. *)
Theorem parameterToString_injective p q :
  parameterToString p = parameterToString q ->
  p = q /\ parameterToString p <> "".
Proof.
  intros H. split; [| by destruct p].
  destruct p; destruct q; first [reflexivity | discriminate H].
Qed.

Lemma parameterToString_injective_witness :
  parameterToString NH4 = "NH₄⁺ (mg/L)" /\ parameterToString NH4 <> "".
Proof.
  split; [reflexivity |].
  exact (proj2 (parameterToString_injective NH4 NH4 eq_refl)).
Defined.

(** X17.  The override map behaves as a map: [addRemovalEfficiency]
    sets the entry of its parameter and [removeRemovalEfficiency] clears
    it, both leaving the other entries and both waters alone; removing an
    override just added gives back the component when the parameter had
    no override before (an earlier override is not restored). *)
Theorem removal_efficiency_store this param efficiency q :
  removalEfficiencies (addRemovalEfficiency this param efficiency) !! q
  = (if decide (param = q) then Some efficiency
     else removalEfficiencies this !! q)
  /\ removalEfficiencies (removeRemovalEfficiency this param) !! q
     = (if decide (param = q) then None else removalEfficiencies this !! q)
  /\ inletWater (addRemovalEfficiency this param efficiency) = inletWater this
  /\ outletWater (addRemovalEfficiency this param efficiency) = outletWater this
  /\ removeRemovalEfficiency (addRemovalEfficiency this param efficiency) param
     = removeRemovalEfficiency this param
  /\ (removalEfficiencies this !! param = None ->
      removeRemovalEfficiency (addRemovalEfficiency this param efficiency) param
      = this).
Proof.
  destruct this as [k ? ? ? ? ? i o m].
  unfold addRemovalEfficiency, removeRemovalEfficiency, set_removalEfficiencies.
  simpl. split; [apply lookup_insert |]. split; [apply lookup_delete |].
  split; [done |]. split; [done |].
  split; [by rewrite delete_insert_eq |].
  intros H. by rewrite delete_insert_id.
Qed.

Lemma removal_efficiency_store_witness :
  removalEfficiencies (Component_new Filtration) !! TSS = None
  /\ removeRemovalEfficiency
       (addRemovalEfficiency (Component_new Filtration) TSS 0.5%R) TSS
     = Component_new Filtration.
Proof.
  assert (H : removalEfficiencies (Component_new Filtration) !! TSS = None)
    by reflexivity.
  split; [exact H |].
  exact (proj2 (proj2 (proj2 (proj2 (proj2
    (removal_efficiency_store (Component_new Filtration) TSS 0.5%R TSS))))) H).
Defined.

End Miscellany.

(** ** Where binary32 leaves the reals *)

Section Binary32Facts.
Local Open Scope R_scope.

Lemma Rpower_double_lower x y a b :
  2 * y = x -> 0 <= a -> a <= Rpower 1.035 y -> b <= a * a ->
  b <= Rpower 1.035 x.
Proof.
  intros <- Ha Hy Hb. replace (2 * y) with (y + y) by lra.
  rewrite Rpower_plus. apply Rle_trans with (a * a); [done |].
  by apply Rmult_le_compat.
Qed.

(** [1.035 ^ 2980] is beyond the binary32 range. *)
Lemma tempFactor_overflows : FLT_MAX < Rpower 1.035 (3000 - 20.0).
Proof.
  assert (H0 : 1.035 <= Rpower 1.035 1) by (rewrite Rpower_1; lra).
  assert (H1 : 1.0712250 <= Rpower 1.035 2)
    by (apply (Rpower_double_lower _ 1 1.035); [lra | lra | exact H0 | lra]).
  assert (H2 : 1.1475230 <= Rpower 1.035 4)
    by (apply (Rpower_double_lower _ 2 1.0712250); [lra | lra | exact H1 | lra]).
  assert (H3 : 1.3168090 <= Rpower 1.035 8)
    by (apply (Rpower_double_lower _ 4 1.1475230); [lra | lra | exact H2 | lra]).
  assert (H4 : 1.7339859 <= Rpower 1.035 16)
    by (apply (Rpower_double_lower _ 8 1.3168090); [lra | lra | exact H3 | lra]).
  assert (H5 : 3.0067071 <= Rpower 1.035 32)
    by (apply (Rpower_double_lower _ 16 1.7339859); [lra | lra | exact H4 | lra]).
  assert (H6 : 9.0402875 <= Rpower 1.035 64)
    by (apply (Rpower_double_lower _ 32 3.0067071); [lra | lra | exact H5 | lra]).
  assert (H7 : 81.726798 <= Rpower 1.035 128)
    by (apply (Rpower_double_lower _ 64 9.0402875); [lra | lra | exact H6 | lra]).
  assert (H8 : 6679.2695 <= Rpower 1.035 256)
    by (apply (Rpower_double_lower _ 128 81.726798); [lra | lra | exact H7 | lra]).
  assert (H9 : 44612641 <= Rpower 1.035 512)
    by (apply (Rpower_double_lower _ 256 6679.2695); [lra | lra | exact H8 | lra]).
  assert (H10 : 1990287700000000 <= Rpower 1.035 1024)
    by (apply (Rpower_double_lower _ 512 44612641); [lra | lra | exact H9 | lra]).
  assert (H11 : 3961245100000000000000000000000 <= Rpower 1.035 2048)
    by (apply (Rpower_double_lower _ 1024 1990287700000000); [lra | lra | exact H10 | lra]).
  assert (Hrest : 1 <= Rpower 1.035 164).
  { rewrite <- (Rpower_O 1.035) by lra. apply Rle_Rpower; lra. }
  replace (3000 - 20.0) with (2048 + (512 + (256 + 164))) by lra.
  rewrite !Rpower_plus.
  set (p11 := Rpower 1.035 2048) in *. set (p9 := Rpower 1.035 512) in *.
  set (p8 := Rpower 1.035 256) in *. set (p0 := Rpower 1.035 164) in *.
  clearbody p11 p9 p8 p0.
  assert (H98 : 44612641 * 6679.2695 <= p9 * (p8 * p0)).
  { apply Rmult_le_compat; [lra | lra | exact H9 |].
    rewrite <- (Rmult_1_r 6679.2695). apply Rmult_le_compat; lra. }
  assert (Hall : 3961245100000000000000000000000 * (44612641 * 6679.2695)
                 <= p11 * (p9 * (p8 * p0))).
  { apply Rmult_le_compat; [lra | lra | exact H11 | exact H98]. }
  unfold FLT_MAX. lra.
Qed.

(** The influent at 3000 degrees is outside the range in which the
    temperature factor is a number. *)
Lemma hot_inlet_out_of_range :
  nonneg hot_inlet /\ ~ tempFactor_in_range hot_inlet.
Proof.
  split.
  - apply updateParameter_nonneg; [apply Water_new_nonneg | lra].
  - unfold tempFactor_in_range, getParameter, hot_inlet, updateParameter.
    simpl. pose proof tempFactor_overflows. lra.
Qed.

Lemma of_real_in_range r : - FLT_MAX <= r <= FLT_MAX -> of_real r = Fin r.
Proof.
  intros [Hlo Hhi]. unfold of_real.
  destruct (Rlt_dec FLT_MAX r); [lra |].
  destruct (Rlt_dec r (- FLT_MAX)); [lra | done].
Qed.

Lemma of_real_overflow r : FLT_MAX < r -> of_real r = PInf.
Proof. intros H. unfold of_real. by destruct (Rlt_dec FLT_MAX r). Qed.

Lemma FLT_MAX_large : 1e38 < FLT_MAX.
Proof. unfold FLT_MAX. lra. Qed.

Lemma f32_sub_Fin a b :
  - FLT_MAX <= a - b <= FLT_MAX -> f32_sub (Fin a) (Fin b) = Fin (a - b).
Proof.
  intros H. unfold f32_sub, f32_neg, f32_add.
  replace (a + - b) with (a - b) by lra. by apply of_real_in_range.
Qed.

Lemma f32_mul_Fin a b :
  - FLT_MAX <= a * b <= FLT_MAX -> f32_mul (Fin a) (Fin b) = Fin (a * b).
Proof. apply of_real_in_range. Qed.

Lemma updateParameter32_same w p v : updateParameter32 w p v p = v.
Proof. unfold updateParameter32. by rewrite decide_True. Qed.

Lemma updateParameter32_other w p v q :
  q <> p -> updateParameter32 w p v q = w q.
Proof. intros H. unfold updateParameter32. by rewrite decide_False. Qed.

(** One first-order removal, in range: binary32 and the reals agree. *)
Lemma removal_in_range k h tf x :
  0 <= k <= 1 -> 0 <= h <= FLT_MAX -> 0 < tf <= FLT_MAX ->
  k * h * tf <= FLT_MAX -> 0 <= x <= FLT_MAX ->
  f32_sub (Fin x)
    (f32_mul (Fin x)
       (f32_sub (Fin 1)
          (f32_exp (f32_mul (f32_mul (f32_neg (Fin k)) (Fin h)) (Fin tf)))))
  = Fin (x - x * (1 - exp (- k * h * tf))).
Proof.
  intros Hk Hh Htf Hx Hxr. pose proof FLT_MAX_large as HM.
  assert (0 <= k * h) by nra.
  assert (k * h <= FLT_MAX) by nra.
  assert (0 <= k * h * tf) by nra.
  cbn [f32_neg]. rewrite (f32_mul_Fin (- k) h) by lra.
  rewrite (f32_mul_Fin (- k * h) tf) by lra.
  assert (He : 0 < exp (- k * h * tf) <= 1).
  { split; [apply exp_pos |]. rewrite <- exp_0. apply exp_le. lra. }
  cbn [f32_exp]. set (e := exp (- k * h * tf)) in *. clearbody e.
  rewrite (of_real_in_range e) by lra.
  rewrite (f32_sub_Fin 1 e) by lra.
  rewrite (f32_mul_Fin x (1 - e)) by nra.
  rewrite (f32_sub_Fin x (x * (1 - e))) by nra. done.
Qed.

(** In range the two readings of the aeration tank agree on what it
    removes: for an inlet water with values between 0 and [FLT_MAX], a
    retention time between 0 and [FLT_MAX], and a temperature factor and
    an exponent within the binary32 range, the binary32 outlet BOD and
    ammonium are the values of the real-number definition. *)
Lemma AerationTank_binary32_agrees this dt p :
  kind this = AerationTank ->
  (forall q, 0 <= getParameter (inletWater this) q <= FLT_MAX) ->
  0 <= HRT this <= FLT_MAX ->
  tempFactor_in_range (inletWater this) ->
  0.2 * HRT this
  * Rpower 1.035 (getParameter (inletWater this) TEMP - 20.0) <= FLT_MAX ->
  p = BOD \/ p = NH4 ->
  AerationTank_simulate_binary32 (Fin (HRT this)) (Water32_of (inletWater this)) p
  = Fin (getParameter (outletWater (simulate this dt)) p).
Proof.
  destruct this as [k ? ? h ? ? w o m]; simpl.
  unfold tempFactor_in_range, getParameter.
  intros -> Hw Hh Htf Hexp Hp. pose proof FLT_MAX_large as HM.
  pose proof (Hw TEMP). pose proof (Hw BOD). pose proof (Hw NH4).
  pose proof (tempFactor_pos (w TEMP - 20.0)) as Hpos.
  unfold AerationTank_simulate_binary32, Water32_of. cbv zeta.
  rewrite (f32_sub_Fin (w TEMP) 20.0) by lra. cbn [f32_pow].
  set (tf := Rpower 1.035 (w TEMP - 20.0)) in *.
  rewrite (of_real_in_range tf) by lra.
  match goal with |- (if ?c then _ else _) p = _ => destruct c end;
    destruct Hp as [-> | ->];
    rewrite ?(updateParameter32_other _ DO) by discriminate;
    rewrite ?(updateParameter32_other _ NO3) by discriminate;
    rewrite ?(updateParameter32_other _ NH4 _ BOD) by discriminate;
    rewrite updateParameter32_same;
    (rewrite removal_in_range; [| lra | lra | lra | nra | lra]);
    unfold_simulate; simpl; unfold getParameter, updateParameter;
    rewrite clamp_DO_apply; simpl; reflexivity.
Qed.

Lemma AerationTank_binary32_agrees_witness :
  AerationTank_simulate_binary32 (Fin 10) (Water32_of Water_new) BOD
  = Fin (getParameter (outletWater (simulate (Component_new AerationTank) 0.016))
           BOD).
Proof.
  pose proof FLT_MAX_large as HM.
  assert (Htf : Rpower 1.035 (20.0 - 20.0) = 1).
  { replace (20.0 - 20.0) with 0 by lra. apply Rpower_O. lra. }
  apply (AerationTank_binary32_agrees (Component_new AerationTank) 0.016 BOD).
  - reflexivity.
  - intros q. unfold getParameter. destruct q; simpl; lra.
  - simpl. lra.
  - unfold tempFactor_in_range, getParameter. simpl. rewrite Htf. lra.
  - unfold getParameter. simpl. rewrite Htf. lra.
  - by left.
Defined.

Lemma of_real_nonneg r : 0 <= r -> f32_nonneg (of_real r).
Proof.
  intros H. pose proof FLT_MAX_large. unfold of_real.
  destruct (Rlt_dec FLT_MAX r); [done |].
  destruct (Rlt_dec r (- FLT_MAX)); [lra | done].
Qed.

Lemma f32_add_nonneg x y : f32_nonneg x -> f32_nonneg y -> f32_nonneg (f32_add x y).
Proof.
  destruct x as [a | | |], y as [b | | |]; simpl; try done.
  intros Ha Hb. apply of_real_nonneg. lra.
Qed.

Lemma f32_mul_nonneg x c : f32_nonneg x -> 0 < c -> f32_nonneg (f32_mul x (Fin c)).
Proof.
  destruct x as [a | | |]; simpl; try done; intros Ha Hc.
  - apply of_real_nonneg. nra.
  - unfold f32_scale_inf. by destruct (Rlt_dec 0 c).
Qed.

(** The decay factor of a first-order removal is a number between 0 and
    1, also when its exponent overflows to minus infinity. *)
Lemma decay_binary32 k h tf :
  0 <= k <= 1 -> 0 <= h <= FLT_MAX -> 0 < tf <= FLT_MAX ->
  exists e,
    f32_exp (f32_mul (f32_mul (f32_neg (Fin k)) (Fin h)) (Fin tf)) = Fin e
    /\ 0 <= e <= 1.
Proof.
  intros Hk Hh Htf. pose proof FLT_MAX_large as HM.
  assert (0 <= k * h) by nra.
  assert (k * h <= FLT_MAX) by nra.
  assert (0 <= k * h * tf) by nra.
  cbn [f32_neg]. rewrite (f32_mul_Fin (- k) h) by lra.
  cbn [f32_mul]. unfold of_real at 1.
  destruct (Rlt_dec FLT_MAX (- k * h * tf)); [lra |].
  destruct (Rlt_dec (- k * h * tf) (- FLT_MAX)).
  - exists 0. simpl. split; [done | lra].
  - assert (He : 0 < exp (- k * h * tf) <= 1).
    { split; [apply exp_pos |]. rewrite <- exp_0. apply exp_le. lra. }
    exists (exp (- k * h * tf)). cbn [f32_exp].
    rewrite of_real_in_range by lra. split; [done | lra].
Qed.

(** What a first-order removal takes is a number between 0 and the inlet
    value. *)
Lemma removal_binary32 k h tf x :
  0 <= k <= 1 -> 0 <= h <= FLT_MAX -> 0 < tf <= FLT_MAX -> 0 <= x <= FLT_MAX ->
  exists r,
    f32_mul (Fin x)
      (f32_sub (Fin 1)
         (f32_exp (f32_mul (f32_mul (f32_neg (Fin k)) (Fin h)) (Fin tf))))
    = Fin r
    /\ 0 <= r <= x.
Proof.
  intros Hk Hh Htf Hx. pose proof FLT_MAX_large as HM.
  destruct (decay_binary32 k h tf Hk Hh Htf) as (e & -> & He).
  rewrite (f32_sub_Fin 1 e) by lra.
  rewrite (f32_mul_Fin x (1 - e)) by nra.
  exists (x * (1 - e)). split; [done | nra].
Qed.

(** The clamp after the oxygen demand is subtracted: whatever the demand,
    a number or plus infinity, the outlet value is a number between 0 and
    the inlet value. *)
Lemma clamp_binary32 (out : Water32) d c :
  0 <= d <= FLT_MAX -> f32_nonneg c ->
  out DO = f32_sub (Fin d) c ->
  exists d',
    (if f32_lt (out DO) (Fin 0) then updateParameter32 out DO (Fin 0) else out) DO
    = Fin d'
    /\ 0 <= d' <= d.
Proof.
  intros Hd Hc E. pose proof FLT_MAX_large as HM.
  destruct (f32_lt (out DO) (Fin 0)) eqn:Hlt.
  { exists 0. rewrite updateParameter32_same. split; [done | lra]. }
  rewrite E in Hlt |- *.
  destruct c as [a | | |]; simpl in Hc; try done.
  unfold f32_sub, f32_neg, f32_add, of_real in *.
  destruct (Rlt_dec FLT_MAX (d + - a)); [lra |].
  destruct (Rlt_dec (d + - a) (- FLT_MAX)); [by simpl in Hlt |].
  simpl in Hlt. destruct (Rlt_dec (d + - a) 0); [done |].
  exists (d + - a). split; [done | lra].
Qed.

(** The five clamping units: the outlet dissolved oxygen is a number
    between 0 and the inlet value. *)
Lemma clamped_DO_binary32 sim h w :
  In sim [AnaerobicAerobicFilter_simulate_binary32; MBR_simulate_binary32;
          Biofilter_simulate_binary32; AerationTank_simulate_binary32;
          ActiveSludgeProcess_simulate_binary32] ->
  0 <= h <= FLT_MAX ->
  (forall p, 0 <= getParameter w p <= FLT_MAX) ->
  tempFactor_in_range w ->
  exists d, sim (Fin h) (Water32_of w) DO = Fin d /\ 0 <= d <= getParameter w DO.
Proof.
  unfold tempFactor_in_range, getParameter.
  intros Hs Hh Hw Htf. pose proof FLT_MAX_large as HM.
  pose proof (Hw TEMP). pose proof (Hw BOD). pose proof (Hw COD).
  pose proof (Hw NH4). pose proof (Hw DO).
  pose proof (tempFactor_pos (w TEMP - 20.0)) as Hpos.
  simpl in Hs.
  destruct Hs as [<- | [<- | [<- | [<- | [<- | []]]]]];
    match goal with |- exists _, ?f _ _ _ = _ /\ _ => unfold f end;
    unfold Water32_of; cbv zeta;
    rewrite (f32_sub_Fin (w TEMP) 20.0) by lra; cbn [f32_pow];
    set (tf := Rpower 1.035 (w TEMP - 20.0)) in *;
    rewrite (of_real_in_range tf) by lra;
    rewrite ?(updateParameter32_other _ COD _ DO) by discriminate;
    repeat match goal with
      | |- context [f32_mul (Fin ?x)
                      (f32_sub (Fin 1)
                         (f32_exp (f32_mul (f32_mul (f32_neg (Fin ?k)) (Fin h))
                                     (Fin tf))))] =>
          let r := fresh "r" in
          let Hr := fresh "Hr" in
          destruct (removal_binary32 k h tf x ltac:(lra) Hh ltac:(lra) ltac:(lra))
            as (r & -> & Hr)
      end;
    (eapply clamp_binary32; [lra | | apply updateParameter32_same]);
    (apply f32_mul_nonneg; [| lra]);
    repeat apply f32_add_nonneg;
    try (apply f32_mul_nonneg; [| lra]); simpl; lra.
Qed.

(** C6.  In binary32, with its infinities and NaN: for each of the six
    kinetic units, a retention time that is a number and not negative, an
    inlet water whose values are numbers and not negative, and a
    temperature factor [1.035 ^ (TEMP - 20)] that does not overflow, the
    outlet dissolved oxygen is a number between 0 and the inlet value,
    however large the oxygen demand (it may overflow to plus infinity)
    and also when the inlet has no oxygen. *)
Theorem kinetic_DO_range k h w :
  kinetic_family k = true ->
  0 <= h <= FLT_MAX ->
  (forall p, 0 <= getParameter w p <= FLT_MAX) ->
  tempFactor_in_range w ->
  exists sim d,
    kinetic_simulate_binary32 k = Some sim
    /\ sim (Fin h) (Water32_of w) DO = Fin d
    /\ f32_ge (sim (Fin h) (Water32_of w) DO) (Fin 0) = true
    /\ 0 <= d <= getParameter w DO.
Proof.
  intros Hk Hh Hw Htf.
  assert (Hge : forall x d, x = Fin d -> 0 <= d <= getParameter w DO ->
                x = Fin d /\ f32_ge x (Fin 0) = true
                /\ 0 <= d <= getParameter w DO).
  { intros x d -> Hd. split; [done |]. split; [| done].
    unfold f32_ge, f32_le, f32_lt. destruct (Rlt_dec d 0); [lra | done]. }
  destruct k; try discriminate Hk; simpl;
    match goal with
    | |- exists sim d, Some NitrificationTank_simulate_binary32 = Some sim /\ _ =>
        exists NitrificationTank_simulate_binary32, (getParameter w DO);
        split; [reflexivity |]; apply Hge; [| specialize (Hw DO); lra];
        unfold NitrificationTank_simulate_binary32, Water32_of; cbv zeta;
        by rewrite !updateParameter32_other by discriminate
    | |- exists sim d, Some ?f = Some sim /\ _ =>
        destruct (clamped_DO_binary32 f h w) as (d & E & Hd);
        [simpl; tauto | done | done | done |];
        exists f, d; split; [reflexivity | by apply Hge]
    end.
Qed.

(** An aeration tank, ten hours, on the default influent without oxygen:
    the demand exceeds the oxygen and the outlet has none. *)
Lemma kinetic_DO_range_witness :
  exists sim d,
    kinetic_simulate_binary32 AerationTank = Some sim
    /\ sim (Fin 10) (Water32_of anoxic_inlet) DO = Fin d
    /\ f32_ge (sim (Fin 10) (Water32_of anoxic_inlet) DO) (Fin 0) = true
    /\ 0 <= d <= getParameter anoxic_inlet DO.
Proof.
  pose proof FLT_MAX_large as HM.
  apply (kinetic_DO_range AerationTank 10 anoxic_inlet).
  - reflexivity.
  - lra.
  - intros p. unfold getParameter, anoxic_inlet, updateParameter.
    destruct p; simpl; lra.
  - apply tempFactor_in_range_20. reflexivity.
Defined.

(** C6, the case outside that range.  An aeration tank with retention
    time 0 on the default influent at 3000 degrees, all of whose values
    are numbers and not negative: the temperature factor overflows to
    plus infinity, the exponent [-0.2 * 0 * inf] is NaN, and so are the
    removals and the oxygen left; [NaN < 0] is false, so the clamp does
    not fire and the outlet dissolved oxygen is NaN, for which [>= 0] is
    false. *)
Lemma AerationTank_DO_is_NaN :
  kinetic_simulate_binary32 AerationTank = Some AerationTank_simulate_binary32
  /\ (forall p, 0 <= getParameter hot_inlet p <= FLT_MAX)
  /\ f32_pow 1.035 (f32_sub (Water32_of hot_inlet TEMP) (Fin 20.0)) = PInf
  /\ AerationTank_simulate_binary32 (Fin 0) (Water32_of hot_inlet) DO = NaN
  /\ f32_lt (AerationTank_simulate_binary32 (Fin 0) (Water32_of hot_inlet) DO)
       (Fin 0) = false
  /\ f32_ge (AerationTank_simulate_binary32 (Fin 0) (Water32_of hot_inlet) DO)
       (Fin 0) = false.
Proof.
  pose proof FLT_MAX_large as HM.
  assert (Htf : f32_pow 1.035 (f32_sub (Water32_of hot_inlet TEMP) (Fin 20.0))
                = PInf).
  { unfold Water32_of, hot_inlet, updateParameter; simpl.
    rewrite of_real_in_range by lra. simpl.
    replace (3000 + - 20.0) with (3000 - 20.0) by lra.
    apply of_real_overflow, tempFactor_overflows. }
  assert (Hnan : forall k, f32_mul (f32_mul (f32_neg (Fin k)) (Fin 0)) PInf = NaN).
  { intros k. simpl. rewrite of_real_in_range by lra. simpl.
    unfold f32_scale_inf.
    destruct (Rlt_dec 0 (- k * 0)); [lra |].
    destruct (Rlt_dec (- k * 0) 0); [lra | done]. }
  assert (Hdo : AerationTank_simulate_binary32 (Fin 0) (Water32_of hot_inlet) DO
                = NaN).
  { unfold AerationTank_simulate_binary32. rewrite Htf, !Hnan.
    unfold updateParameter32; simpl. reflexivity. }
  split; [reflexivity |]. split.
  { intros p. unfold getParameter, hot_inlet, updateParameter.
    destruct p; simpl; lra. }
  split; [exact Htf |]. split; [exact Hdo |]. by rewrite Hdo.
Qed.

Lemma clamp_other (c : bool) (out : Water32) v p :
  p <> DO -> (if c then updateParameter32 out DO v else out) p = out p.
Proof. intros Hp. destruct c; [by apply updateParameter32_other | done]. Qed.

Lemma of_real_not_NaN r : of_real r <> NaN.
Proof.
  unfold of_real.
  destruct (Rlt_dec FLT_MAX r); [done |]. by destruct (Rlt_dec r (- FLT_MAX)).
Qed.

Lemma f32_add_Fin_not_NaN a y : y <> NaN -> f32_add (Fin a) y <> NaN.
Proof. destruct y; simpl; try done. intros _. apply of_real_not_NaN. Qed.

Lemma f32_sub_Fin_not_NaN a y : y <> NaN -> f32_sub (Fin a) y <> NaN.
Proof. intros H. apply f32_add_Fin_not_NaN. by destruct y. Qed.

Lemma f32_mul_Fin_not_NaN a b : f32_mul (Fin a) (Fin b) <> NaN.
Proof. apply of_real_not_NaN. Qed.

(** X19.  In binary32 no outlet value of a kinetic unit is NaN when the
    retention time is a number and not negative, the inlet values are
    numbers and not negative, and the temperature factor does not
    overflow: sums and products may overflow to an infinity, but neither
    [0 * inf] nor [inf - inf] arises. *)
Theorem kinetic_binary32_never_NaN k sim h w p :
  kinetic_simulate_binary32 k = Some sim ->
  0 <= h <= FLT_MAX ->
  (forall q, 0 <= getParameter w q <= FLT_MAX) ->
  tempFactor_in_range w ->
  sim (Fin h) (Water32_of w) p <> NaN.
Proof.
  unfold tempFactor_in_range, getParameter.
  intros Hk Hh Hw Htf. pose proof FLT_MAX_large as HM.
  pose proof (Hw TEMP). pose proof (Hw BOD). pose proof (Hw COD).
  pose proof (Hw NH4). pose proof (Hw DO).
  pose proof (tempFactor_pos (w TEMP - 20.0)) as Hpos.
  destruct (decide (p = DO /\ k <> NitrificationTank)) as [[-> Hn] | Hp].
  { assert (exists d, sim (Fin h) (Water32_of w) DO = Fin d /\ 0 <= d <= w DO)
      as (d & -> & _); [| done].
    apply clamped_DO_binary32; [| done | done | done].
    destruct k; try discriminate Hk; try (by destruct Hn);
      injection Hk as <-; simpl; tauto. }
  destruct k; try discriminate Hk; injection Hk as <-;
    match goal with |- ?f _ _ _ <> _ => unfold f end;
    unfold Water32_of; cbv zeta;
    rewrite (f32_sub_Fin (w TEMP) 20.0) by lra; cbn [f32_pow];
    set (tf := Rpower 1.035 (w TEMP - 20.0)) in *;
    rewrite (of_real_in_range tf) by lra;
    repeat match goal with
      | |- context [f32_mul (Fin ?x)
                      (f32_sub (Fin 1)
                         (f32_exp (f32_mul (f32_mul (f32_neg (Fin ?k)) (Fin h))
                                     (Fin tf))))] =>
          let r := fresh "r" in
          let Hr := fresh "Hr" in
          destruct (removal_binary32 k h tf x ltac:(lra) Hh ltac:(lra) ltac:(lra))
            as (r & -> & Hr)
      end;
    (destruct p; try (exfalso; apply Hp; split; [reflexivity | discriminate]));
    repeat first
      [ rewrite updateParameter32_same
      | rewrite updateParameter32_other by discriminate
      | rewrite clamp_other by discriminate ];
    repeat first
      [ discriminate
      | apply f32_sub_Fin_not_NaN
      | apply f32_add_Fin_not_NaN
      | apply f32_mul_Fin_not_NaN ].
Qed.

(** The aeration tank, ten hours, on the default influent: the outlet
    nitrate is not NaN. *)
Lemma kinetic_binary32_never_NaN_witness :
  AerationTank_simulate_binary32 (Fin 10) (Water32_of Water_new) NO3 <> NaN.
Proof.
  pose proof FLT_MAX_large as HM.
  apply (kinetic_binary32_never_NaN AerationTank _ 10 Water_new NO3).
  - reflexivity.
  - lra.
  - intros q. unfold getParameter. destruct q; simpl; lra.
  - apply tempFactor_in_range_20. reflexivity.
Defined.

(** X18.  A flow particle is never cyan, the colour it is initialised
    with.  For an upstream BOD that is a number it is dark red exactly
    above 200 and green exactly up to 10; plus infinity is dark red;
    minus infinity and NaN, for which every [>] test fails, are green. *)
Theorem particle_color_bands :
  (forall bod, particle_color bod <> Color_Cyan)
  /\ (forall b,
        (particle_color (Fin b) = (139, 0, 0)%nat <-> 200 < b)
        /\ (particle_color (Fin b) = (0, 255, 0)%nat <-> b <= 10))
  /\ particle_color PInf = (139, 0, 0)%nat
  /\ particle_color NInf = (0, 255, 0)%nat
  /\ particle_color NaN = (0, 255, 0)%nat.
Proof.
  split; [| split; [| by repeat split]].
  - intros bod. unfold particle_color, Color_Cyan, f32_gt.
    repeat match goal with |- context [f32_lt ?x ?y] => destruct (f32_lt x y) end;
      discriminate.
  - intros b. unfold particle_color, f32_gt, f32_lt.
    repeat match goal with |- context [Rlt_dec ?x ?y] => destruct (Rlt_dec x y) end;
      split; split;
      first [ discriminate | intros _; lra | intros _; reflexivity | intros; lra ].
Qed.

End Binary32Facts.
